(** * Cake API: the record service of cakes_app, embedded and verified

    The development follows [cakes_app/services/cake_service.py] (class
    [CakeService]) and the resource classes of
    [cakes_app/controllers/cake_controller.py].

    - Python values, dictionaries (insertion ordered) and exceptions;
    - a state-and-exception monad for code that talks to a collection;
    - the collection interface the service is written against, a call
      recorder, and an in-memory document collection with MongoDB's
      behaviour on the calls the service makes;
    - the service and resource methods, statement by statement;
    - the properties of the specification.

    The document store and the libraries the service calls ([uuid],
    [bson.json_util], pymongo) are not part of the repository: they are
    modelled here as far as the service depends on them, and each model
    says what it leaves out. *)

From Stdlib Require Import List String Ascii ZArith NArith Bool Lia.
From Stdlib Require DecimalString.
Import ListNotations.
Open Scope string_scope.
Set Warnings "-register-all".

(** ** Python values *)

(** The values a decoded JSON body or a stored document can hold.  The
    service never looks inside a value: it only moves values between
    dictionaries, and compares an identifier with a string. *)
Inductive pyval : Type :=
| PNone
| PBool (b : bool)
| PInt (z : Z)
| PFloat (bits : N)            (* IEEE-754 binary64, as its bit pattern *)
| PStr (s : string)
| PList (l : list pyval)
| PDict (d : list (string * pyval)).

(** A [dict] with string keys, in insertion order, as Python keeps it. *)
Definition dict := list (string * pyval).

(** The same value, constructor by constructor. *)
Fixpoint pyval_eqb (a b : pyval) {struct a} : bool :=
  match a, b with
  | PNone, PNone => true
  | PBool x, PBool y => Bool.eqb x y
  | PInt x, PInt y => Z.eqb x y
  | PFloat x, PFloat y => N.eqb x y
  | PStr x, PStr y => String.eqb x y
  | PList l, PList m =>
      (fix all2 (l m : list pyval) {struct l} : bool :=
         match l, m with
         | [], [] => true
         | x :: l', y :: m' => pyval_eqb x y && all2 l' m'
         | _, _ => false
         end) l m
  | PDict d, PDict e =>
      (fix all2 (d e : list (string * pyval)) {struct d} : bool :=
         match d, e with
         | [], [] => true
         | (k, x) :: d', (k', y) :: e' =>
             String.eqb k k' && pyval_eqb x y && all2 d' e'
         | _, _ => false
         end) d e
  | _, _ => false
  end.

Definition dict_eqb (d e : dict) : bool := pyval_eqb (PDict d) (PDict e).

Module Dict.

Definition keys (d : dict) : list string := map fst d.

(** [d.get(k)], [None] when the key is absent. *)
Fixpoint get (k : string) (d : dict) : option pyval :=
  match d with
  | [] => None
  | (k', v) :: rest => if String.eqb k k' then Some v else get k rest
  end.

(** [k in d]. *)
Fixpoint mem (k : string) (d : dict) : bool :=
  match d with
  | [] => false
  | (k', _) :: rest => if String.eqb k k' then true else mem k rest
  end.

(** [d[k] = v]: an existing key keeps its position, a new key goes last. *)
Fixpoint set (k : string) (v : pyval) (d : dict) : dict :=
  match d with
  | [] => [(k, v)]
  | (k', v') :: rest =>
      if String.eqb k k' then (k', v) :: rest else (k', v') :: set k v rest
  end.

(** [d.update(other)]: the entries of [other], in order, assigned into [d]. *)
Definition update (d other : dict) : dict :=
  fold_left (fun acc kv => set (fst kv) (snd kv) acc) other d.

(** Truth value of a dictionary: empty is false. *)
Definition truthy (d : dict) : bool :=
  match d with [] => false | _ :: _ => true end.

(** Keys are unique in a Python dictionary. *)
Definition wf (d : dict) : Prop := NoDup (keys d).

End Dict.

(** Truth value of a list: empty is false. *)
Definition list_truthy {A} (l : list A) : bool :=
  match l with [] => false | _ :: _ => true end.

(** [x in xs] for a list of strings. *)
Definition str_in (x : string) (xs : list string) : bool :=
  existsb (String.eqb x) xs.

(** ** Exceptions *)

(** The exception classes that matter to the service.  All of them derive
    from [Exception]; the service tells [ValueError] from the rest. *)
Inductive exc_class : Type :=
| ValueError
| TypeError
| KeyError
| DuplicateKeyError
| OperationFailure
| ConnectionFailure
| OverflowError
| InvalidDocument
| DocumentTooLarge.

Record exc : Type := mkExc { exc_cls : exc_class; exc_str : string }.

(** [isinstance(e, Exception)]: every class above is one. *)
Definition is_Exception (e : exc) : bool := true.

(** [isinstance(e, ValueError)]. *)
Definition is_ValueError (e : exc) : bool :=
  match exc_cls e with ValueError => true | _ => false end.

Inductive outcome (A : Type) : Type :=
| Returned (a : A)
| Raised (e : exc).
Arguments Returned {A} a.
Arguments Raised {A} e.

(** ** Computations over a collection state *)

Module Eff.

(** A computation reads and writes the collection state [S] and either
    returns or raises; the state reached is kept in both cases. *)
Definition M (S A : Type) : Type := S -> outcome A * S.

Definition ret {S A} (a : A) : M S A := fun st => (Returned a, st).

Definition raise {S A} (e : exc) : M S A := fun st => (Raised e, st).

Definition bind {S A B} (m : M S A) (k : A -> M S B) : M S B :=
  fun st => match m st with
            | (Returned a, st') => k a st'
            | (Raised e, st') => (Raised e, st')
            end.

(** [try: m  except <class matching catches>: h(e)]; an exception that the
    clause does not match goes on to the caller. *)
Definition try_except {S A} (m : M S A) (catches : exc -> bool)
           (h : exc -> M S A) : M S A :=
  fun st => match m st with
            | (Returned a, st') => (Returned a, st')
            | (Raised e, st') =>
                if catches e then h e st' else (Raised e, st')
            end.

End Eff.

Declare Scope eff_scope.
Delimit Scope eff_scope with eff.
Notation "x <- m ;; k" := (Eff.bind m (fun x => k))
  (at level 61, m at next level, right associativity) : eff_scope.
Notation "m ;;; k" := (Eff.bind m (fun _ => k))
  (at level 61, right associativity) : eff_scope.

(** ** The collection the service is handed *)

(** The methods of [cake_collection] that [CakeService] calls.  A filter is
    always [{"_id": <string>}], so the string stands for the filter.
    [delete_one] returns the [deleted_count] of its result. *)
Record Collection (S : Type) : Type := mkCollection {
  find_one : string -> Eff.M S (option dict);
  insert_one : dict -> Eff.M S unit;
  delete_one : string -> Eff.M S Z;
  find_one_and_replace : string -> dict -> Eff.M S (option dict)
}.
Arguments find_one {S} _ _ _.
Arguments insert_one {S} _ _ _.
Arguments delete_one {S} _ _ _.
Arguments find_one_and_replace {S} _ _ _ _.

(** ** Identifiers: [str(uuid.uuid4())] *)

Module Uuid.

(** [uuid.UUID(bytes=os.urandom(16), version=4).int], as a function of the
    sixteen random bytes read as one big-endian number [rnd]: the variant
    bits are set to RFC 4122 and the version nibble to 4. *)
Definition uuid4 (rnd : N) : N :=
  let int := N.land rnd (N.ones 128) in
  let int := N.ldiff int (N.shiftl 0xc000 48) in
  let int := N.lor int (N.shiftl 0x8000 48) in
  let int := N.ldiff int (N.shiftl 0xf000 64) in
  N.lor int (N.shiftl 4 76).

Definition hex_digit (n : N) : ascii :=
  nth (N.to_nat n) (list_ascii_of_string "0123456789abcdef") "0"%char.

(** The nibble of [int] that is printed at position [pos] of ['%032x']. *)
Definition nibble (int : N) (pos : nat) : N :=
  N.land (N.shiftr int (4 * N.of_nat (31 - pos))) 15.

(** ['%032x' % int], for [int] below [2^128]. *)
Definition hex32 (int : N) : list ascii :=
  map (fun pos => hex_digit (nibble int pos)) (seq 0 32).

(** [hex[a:b]]. *)
Definition slice (a b : nat) (l : list ascii) : string :=
  string_of_list_ascii (firstn (b - a) (skipn a l)).

(** [str(UUID)]: the groups 8-4-4-4-12 of the hexadecimal form. *)
Definition str (int : N) : string :=
  let hex := hex32 int in
  slice 0 8 hex ++ "-" ++ slice 8 12 hex ++ "-" ++ slice 12 16 hex ++ "-"
    ++ slice 16 20 hex ++ "-" ++ slice 20 32 hex.

(** [str(uuid.uuid4())] for the random bytes [rnd]. *)
Definition fresh (rnd : N) : string := str (uuid4 rnd).

(** The bits that [uuid4] fixes, whatever the random bytes: the variant
    (bits 62 and 63) and the version (bits 76 to 79).  The other 122 bits
    of the identifier are random. *)
Definition fixed_bit (n : N) : bool :=
  existsb (N.eqb n) [62; 63; 76; 77; 78; 79]%N.

Definition is_hex (c : ascii) : bool :=
  existsb (Ascii.eqb c) (list_ascii_of_string "0123456789abcdef").

(** The value of a hexadecimal digit; 0 for any other character. *)
Definition hex_value (c : ascii) : N :=
  (fix index (digits : list ascii) (n : N) {struct digits} : N :=
     match digits with
     | [] => 0
     | d :: rest => if Ascii.eqb c d then n else index rest (n + 1)
     end)%N (list_ascii_of_string "0123456789abcdef") 0%N.

(** What position [i] of the canonical text of a version 4 identifier may
    hold: a hyphen after the groups of 8, 4, 4 and 4 digits, the version
    digit 4 at the head of the third group, one of 8, 9, a, b (the RFC
    4122 variant) at the head of the fourth, a lower-case hexadecimal
    digit elsewhere. *)
Definition allowed_at (i : nat) (c : ascii) : bool :=
  if existsb (Nat.eqb i) [8; 13; 18; 23]%nat then Ascii.eqb c "-"
  else if Nat.eqb i 14 then Ascii.eqb c "4"
  else if Nat.eqb i 19 then existsb (Ascii.eqb c) (list_ascii_of_string "89ab")
  else is_hex c.

(** The text has the canonical form of a version 4 identifier:
    [xxxxxxxx-xxxx-4xxx-yxxx-xxxxxxxxxxxx]. *)
Definition canonical_v4 (text : string) : bool :=
  let cs := list_ascii_of_string text in
  Nat.eqb (List.length cs) 36
  && forallb (fun i => allowed_at i (nth i cs "0"%char)) (seq 0 36).

End Uuid.

(** ** Extended JSON *)

(** [bson.json_util.loads] gives every JSON object to a hook that turns
    the Extended JSON forms ([{"$oid": ...}], [{"$date": ...}],
    [{"$numberLong": ...}] and the like) into BSON values, or raises when
    the form is malformed.  All these forms are objects with a key that
    begins with [$]; an object without such a key comes back as the
    [dict] it spells. *)
Module ExtJson.

Definition dollar (k : string) : bool :=
  match k with
  | String "$" _ => true
  | _ => false
  end.

(** No object inside the value, at any depth, has a key that begins with
    [$]. *)
Fixpoint plain_value (v : pyval) : bool :=
  match v with
  | PList l =>
      (fix all (l : list pyval) : bool :=
         match l with
         | [] => true
         | x :: rest => plain_value x && all rest
         end) l
  | PDict d =>
      (fix all (d : list (string * pyval)) : bool :=
         match d with
         | [] => true
         | (k, x) :: rest => negb (dollar k) && plain_value x && all rest
         end) d
  | _ => true
  end.

Definition plain (doc : dict) : bool := plain_value (PDict doc).

End ExtJson.

(** ** What a service or resource method hands back *)

Inductive result : Type :=
| RNone                               (* [None] *)
| RJson (doc : dict)                  (* [json_util.dumps(doc)], the JSON text of [doc] *)
| RBody (body : dict)                 (* a bare payload, sent with the default status *)
| RStatus (body : dict) (status : Z)  (* the pair [(payload, status)] *)
| RHooked (doc : dict).               (* what the Extended JSON hook makes of the text of [doc] *)

(** Truth value of a result: [None] is false; a JSON text and a pair are
    never empty; a payload is true when it has an entry. *)
Definition result_truthy (r : result) : bool :=
  match r with
  | RNone => false
  | RJson _ => true
  | RBody body => Dict.truthy body
  | RStatus _ _ => true
  | RHooked _ => true
  end.

(** [{"message": text}]. *)
Definition message (text : string) : dict := [("message", PStr text)].

(** [d[k]] inside a computation: [KeyError] when the key is absent. *)
Definition getitem {S} (d : dict) (k : string) : Eff.M S pyval :=
  match Dict.get k d with
  | Some v => Eff.ret v
  | None => Eff.raise (mkExc KeyError k)
  end.

(** ** The service: [CakeService] *)

Module CakeService.

Local Open Scope eff_scope.

Definition required_fields : list string :=
  ["name"; "comment"; "imageUrl"; "yumFactor"].

Definition allowed_fields : list string := required_fields ++ ["_id"].

(** [[field for field in data if field not in allowed_fields]]. *)
Definition unexpected_fields (data : dict) : list string :=
  filter (fun field => negb (str_in field allowed_fields)) (Dict.keys data).

(** [all(field in data for field in required_fields)]. *)
Definition has_required (data : dict) : bool :=
  forallb (fun field => Dict.mem field data) required_fields.

(** [get_cake_by_id(cake_collection, cake_id)]. *)
Definition get_cake_by_id {S} (cake_collection : Collection S)
           (cake_id : string) : Eff.M S result :=
  Eff.try_except
    (cake <- find_one cake_collection cake_id ;;
     Eff.ret (match cake with
              | Some doc => if Dict.truthy doc then RJson doc else RNone
              | None => RNone
              end))
    is_ValueError
    (fun _ => Eff.ret (RStatus (message "Cake not found") 404)).

(** [add_cake(cake_collection, data)].  [rnd] is the randomness consumed
    by [uuid.uuid4()].  The second component of the value is the content
    of the caller's [data] object when the method returns: the method
    assigns into that object, it does not copy it. *)
Definition add_cake {S} (cake_collection : Collection S) (data : dict)
           (rnd : N) : Eff.M S (result * dict) :=
  if negb (has_required data) then
    Eff.ret (RStatus (message "Missing required fields in the data") 400, data)
  else
    let unexpected := unexpected_fields data in
    if list_truthy unexpected then
      Eff.ret (RStatus (message ("Unexpected fields: "
                                 ++ String.concat ", " unexpected)) 400, data)
    else
      let data := Dict.set "_id" (PStr (Uuid.fresh rnd)) data in
      Eff.try_except
        (insert_one cake_collection data ;;;
         id <- getitem data "_id" ;;
         Eff.ret (RBody [("message", PStr "Cake added successfully");
                         ("_id", id)], data))
        is_Exception
        (fun e =>
           Eff.ret (RStatus [("message", PStr "Server error while adding the cake");
                             ("error", PStr (exc_str e))] 500, data)).

(** [delete_cake(cake_collection, cake_id)]. *)
Definition delete_cake {S} (cake_collection : Collection S)
           (cake_id : string) : Eff.M S result :=
  deleted_count <- delete_one cake_collection cake_id ;;
  if Z.eqb deleted_count 1 then
    Eff.ret (RBody (message "Cake deleted successfully"))
  else
    Eff.ret (RStatus (message "Cake not found") 404).

(** [update_cake(cake_collection, cake_id, data)]. *)
Definition update_cake {S} (cake_collection : Collection S)
           (cake_id : string) (data : dict) : Eff.M S result :=
  existing_cake <- find_one cake_collection cake_id ;;
  match existing_cake with
  | Some existing_cake =>
      let existing_cake := Dict.update existing_cake data in
      find_one_and_replace cake_collection cake_id existing_cake ;;;
      Eff.ret (RBody (message "Cake updated successfully"))
  | None => Eff.ret (RStatus (message "Cake not found") 404)
  end.

End CakeService.

(** ** The resource layer: classes [Cakes] and [Cake] *)

Module Resource.

Local Open Scope eff_scope.

(** [json_util.loads(x)].  An argument that is not a string raises
    [TypeError].  The JSON text of a document without Extended JSON forms
    gives the document back.  The text of a document that has a key
    beginning with [$] goes through the hook: what comes out holds BSON
    values ([ObjectId], [datetime], ...) that [pyval] does not have, or is
    the exception of a malformed form; [RHooked] stands for that outcome
    and nothing is stated about it. *)
Definition json_loads {S} (x : result) : Eff.M S result :=
  match x with
  | RJson doc =>
      if ExtJson.plain doc then Eff.ret (RBody doc) else Eff.ret (RHooked doc)
  | _ => Eff.raise (mkExc TypeError "the JSON object must be str, bytes or bytearray")
  end.

(** [Cakes.post], with the decoded body [data]. *)
Definition Cakes_post {S} (cakes : Collection S) (data : dict) (rnd : N)
  : Eff.M S (result * dict) :=
  CakeService.add_cake cakes data rnd.

(** [Cake.get]. *)
Definition Cake_get {S} (cakes : Collection S) (cake_id : string)
  : Eff.M S result :=
  cake <- CakeService.get_cake_by_id cakes cake_id ;;
  if result_truthy cake then json_loads cake
  else Eff.ret (RStatus (message "Cake not found") 404).

(** [Cake.delete]. *)
Definition Cake_delete {S} (cakes : Collection S) (cake_id : string)
  : Eff.M S result :=
  CakeService.delete_cake cakes cake_id.

(** [Cake.put], with the decoded body [data]. *)
Definition Cake_put {S} (cakes : Collection S) (cake_id : string)
           (data : dict) : Eff.M S result :=
  CakeService.update_cake cakes cake_id data.

End Resource.

(** ** A collection that records the calls made on it *)

Inductive call : Type :=
| CallFindOne (cake_id : string)
| CallInsertOne (doc : dict)
| CallDeleteOne (cake_id : string)
| CallFindOneAndReplace (cake_id : string) (doc : dict).

Module Recorder.

(** Runs [m] on the wrapped state and appends [c] to the log. *)
Definition logged {S A} (c : call) (m : Eff.M S A) : Eff.M (S * list call) A :=
  fun st => let (o, s') := m (fst st) in (o, (s', (snd st ++ [c])%list)).

(** The collection [inner], with every call written to a log kept next to
    its state, in the manner of a test double. *)
Definition wrap {S} (inner : Collection S) : Collection (S * list call) :=
  {| find_one := fun i => logged (CallFindOne i) (find_one inner i);
     insert_one := fun d => logged (CallInsertOne d) (insert_one inner d);
     delete_one := fun i => logged (CallDeleteOne i) (delete_one inner i);
     find_one_and_replace := fun i d =>
       logged (CallFindOneAndReplace i d) (find_one_and_replace inner i d) |}.

End Recorder.

(** ** BSON encoding *)

(** pymongo encodes a document to BSON before it sends it.  The encoder
    refuses an integer that does not fit in eight bytes ([OverflowError])
    and a key with a NUL character ([InvalidDocument]), at the first place
    in document order where it meets one; a document of more than 16 MiB
    is refused for its size.  Strings are taken to be valid text.  Limits
    of the server that depend on its version (nesting depth, the field
    names it accepts) are left out. *)
Module Bson.

Definition fits_int32 (z : Z) : bool := ((- 2 ^ 31 <=? z) && (z <? 2 ^ 31))%Z.

Definition fits_int64 (z : Z) : bool := ((- 2 ^ 63 <=? z) && (z <? 2 ^ 63))%Z.

Definition has_nul (k : string) : bool :=
  existsb (Ascii.eqb Ascii.zero) (list_ascii_of_string k).

Definition too_wide : exc :=
  mkExc OverflowError "MongoDB can only handle up to 8-byte ints".

Definition nul_in_key : exc :=
  mkExc InvalidDocument "Key names must not contain the NULL byte".

(** The driver's refusal; just over the limit it is the server that
    refuses, with an [OperationFailure]: the two are not told apart. *)
Definition too_large : exc := mkExc DocumentTooLarge "BSON document too large".

(** The first value or key the encoder refuses, if any. *)
Fixpoint refused_value (v : pyval) : option exc :=
  match v with
  | PInt z => if fits_int64 z then None else Some too_wide
  | PList l =>
      (fix first (l : list pyval) : option exc :=
         match l with
         | [] => None
         | x :: rest =>
             match refused_value x with
             | Some e => Some e
             | None => first rest
             end
         end) l
  | PDict d =>
      (fix first (d : list (string * pyval)) : option exc :=
         match d with
         | [] => None
         | (k, x) :: rest =>
             if has_nul k then Some nul_in_key
             else match refused_value x with
                  | Some e => Some e
                  | None => first rest
                  end
         end) d
  | _ => None
  end.

(** The length of the decimal text of an array index. *)
Definition index_length (i : nat) : N :=
  N.of_nat (String.length (DecimalString.NilZero.string_of_uint (Nat.to_uint i))).

(** The bytes of the encoded value, without its type byte and key. *)
Fixpoint size_value (v : pyval) : N :=
  match v with
  | PNone => 0
  | PBool _ => 1
  | PInt z => if fits_int32 z then 4 else 8
  | PFloat _ => 8
  | PStr s => 4 + N.of_nat (String.length s) + 1
  | PList l =>
      4 + (fix elements (l : list pyval) (i : nat) : N :=
             match l with
             | [] => 0
             | x :: rest =>
                 1 + (index_length i + 1) + size_value x + elements rest (S i)
             end) l 0%nat + 1
  | PDict d =>
      4 + (fix elements (d : list (string * pyval)) : N :=
             match d with
             | [] => 0
             | (k, x) :: rest =>
                 1 + (N.of_nat (String.length k) + 1) + size_value x + elements rest
             end) d + 1
  end%N.

Definition size (doc : dict) : N := size_value (PDict doc).

Definition max_bson_size : N := 16777216.

(** Why the document cannot be sent, if it cannot. *)
Definition refused (doc : dict) : option exc :=
  match refused_value (PDict doc) with
  | Some e => Some e
  | None => if (size doc <=? max_bson_size)%N then None else Some too_large
  end.

End Bson.

(** ** The document collection, in memory *)

(** The documents of the collection in storage order, with the behaviour of
    a MongoDB collection on the calls above: a document is encoded before
    it is written and refused when it cannot be; [_id] is the primary key,
    a second document with the key of a stored one is refused
    ([DuplicateKeyError]), and a replacement may not alter the [_id] of the
    document it replaces ([OperationFailure], the field is immutable).  A
    refused write leaves the collection as it was.  The service files
    documents under string identifiers only; a document that has no [_id],
    or one that is not a string, is kept as it comes. *)
Module Mongo.

Definition store := list dict.

(** The document matches the filter [{"_id": s}]. *)
Definition has_id (s : string) (doc : dict) : bool :=
  match Dict.get "_id" doc with
  | Some (PStr t) => String.eqb s t
  | _ => false
  end.

(** The stored identifiers, in storage order. *)
Definition ids (st : store) : list (option pyval) := map (Dict.get "_id") st.

Fixpoint remove_first (s : string) (st : store) : store :=
  match st with
  | [] => []
  | doc :: rest => if has_id s doc then rest else doc :: remove_first s rest
  end.

Fixpoint replace_first (s : string) (new : dict) (st : store) : store :=
  match st with
  | [] => []
  | doc :: rest =>
      if has_id s doc then new :: rest else doc :: replace_first s new rest
  end.

Definition mem_find_one (s : string) : Eff.M store (option dict) :=
  fun st => (Returned (find (has_id s) st), st).

Definition mem_insert_one (doc : dict) : Eff.M store unit :=
  fun st =>
    match Bson.refused doc with
    | Some e => (Raised e, st)
    | None =>
        match Dict.get "_id" doc with
        | Some (PStr s) =>
            if existsb (has_id s) st then
              (Raised (mkExc DuplicateKeyError
                             ("E11000 duplicate key error, dup key: _id: " ++ s)), st)
            else (Returned tt, (st ++ [doc])%list)
        | _ => (Returned tt, (st ++ [doc])%list)
        end
    end.

Definition mem_delete_one (s : string) : Eff.M store Z :=
  fun st =>
    if existsb (has_id s) st then (Returned 1%Z, remove_first s st)
    else (Returned 0%Z, st).

(** Why the replacement [new] of the stored document [old] cannot be
    encoded, if it cannot.  What is stored was encoded when it was written:
    a replacement equal to the stored document is not refused. *)
Definition replacement_refused (old : option dict) (new : dict) : option exc :=
  match old with
  | Some doc => if dict_eqb doc new then None else Bson.refused new
  | None => Bson.refused new
  end.

Definition altered_id : exc :=
  mkExc OperationFailure
    "After applying the update, the (immutable) field '_id' was found to have been altered".

(** Returns the document that was stored, as pymongo does by default. *)
Definition mem_find_one_and_replace (s : string) (new : dict)
  : Eff.M store (option dict) :=
  fun st =>
    match replacement_refused (find (has_id s) st) new with
    | Some e => (Raised e, st)
    | None =>
        match find (has_id s) st with
        | None => (Returned None, st)
        | Some old =>
            match Dict.get "_id" new with
            | None => (Returned (Some old), replace_first s (("_id", PStr s) :: new) st)
            | Some _ =>
                if has_id s new then (Returned (Some old), replace_first s new st)
                else (Raised altered_id, st)
            end
        end
    end.

Definition collection : Collection store :=
  {| find_one := mem_find_one;
     insert_one := mem_insert_one;
     delete_one := mem_delete_one;
     find_one_and_replace := mem_find_one_and_replace |}.

End Mongo.

(** A collection on which every call raises the exception [e]: with
    [unreachable], a server that cannot be reached (pymongo's
    [ServerSelectionTimeoutError], a [ConnectionFailure]); with [malformed],
    a driver that refuses the identifier with a [ValueError]. *)
Module Failing.

Definition raising (e : exc) : Collection unit :=
  {| find_one := fun _ => Eff.raise e;
     insert_one := fun _ => Eff.raise e;
     delete_one := fun _ => Eff.raise e;
     find_one_and_replace := fun _ _ => Eff.raise e |}.

Definition unreachable : exc := mkExc ConnectionFailure "No servers found yet".

Definition malformed : exc := mkExc ValueError "badly formed hexadecimal UUID string".

End Failing.

(** ** Sample data *)

Module Sample.

Definition victoria : dict :=
  [("name", PStr "Victoria Sponge"); ("comment", PStr "classic");
   ("imageUrl", PStr "v.jpg"); ("yumFactor", PInt 5)].

Definition victoria_extra : dict :=
  (victoria ++ [("extraField", PStr "This should not be here")])%list.

Definition victoria_with_id : dict :=
  (victoria ++ [("_id", PStr "chosen-by-the-client")])%list.

Definition no_yum : dict :=
  [("comment", PStr "New Comment"); ("imageUrl", PStr "new-image.jpg")].

Definition no_yum_extra : dict :=
  (no_yum ++ [("extraField", PStr "This should not be here")])%list.

Definition stored (id : string) : dict :=
  [("_id", PStr id); ("name", PStr "Cake 1"); ("comment", PStr "Comment 1");
   ("imageUrl", PStr "image1.jpg"); ("yumFactor", PInt 4)].

End Sample.

(** ** Listing: [get_all_cakes] *)

(** Python's builtin [str()] is a parameter of the listing.  What the
    listing needs of it, for the identifiers the service assigns, is that a
    string is its own [str]. *)
Definition str_law (py_str : pyval -> string) : Prop :=
  forall s, py_str (PStr s) = s.

Module Listing.

Local Open Scope eff_scope.

(** The [find] method of [cake_collection]: [find({}, projection)], read to
    its end as [list(...)] does.  The projection is given by the names it
    maps to 1. *)
Record Finder (S : Type) : Type := mkFinder {
  find : list string -> Eff.M S (list dict)
}.
Arguments find {S} _ _ _.

(** [{"_id": 1, "name": 1, "comment": 1, "imageUrl": 1, "yumFactor": 1}]. *)
Definition projection : list string :=
  ["_id"; "name"; "comment"; "imageUrl"; "yumFactor"].

(** [for cake in cakes: cake["_id"] = str(cake["_id"])]. *)
Fixpoint convert_ids {S} (py_str : pyval -> string) (cakes : list dict)
  : Eff.M S (list dict) :=
  match cakes with
  | [] => Eff.ret []
  | cake :: rest =>
      id <- getitem cake "_id" ;;
      rest' <- convert_ids py_str rest ;;
      Eff.ret (Dict.set "_id" (PStr (py_str id)) cake :: rest')
  end.

(** [get_all_cakes(cake_collection)]. *)
Definition get_all_cakes {S} (py_str : pyval -> string)
           (cake_collection : Finder S) : Eff.M S (list dict) :=
  cakes <- find cake_collection projection ;;
  convert_ids py_str cakes.

(** [Cakes.get]. *)
Definition Cakes_get {S} (py_str : pyval -> string) (cakes : Finder S)
  : Eff.M S (list dict) :=
  get_all_cakes py_str cakes.

End Listing.

(** [find] on the document collection in memory: every stored document,
    in storage order, cut down to the fields the projection includes. *)
Module MongoFind.

(** An inclusion projection keeps the named fields in document order. *)
Definition project (fields : list string) (doc : dict) : dict :=
  filter (fun kv => str_in (fst kv) fields) doc.

Definition mem_find (fields : list string) : Eff.M Mongo.store (list dict) :=
  fun st => (Returned (map (project fields) st), st).

Definition finder : Listing.Finder Mongo.store :=
  {| Listing.find := mem_find |}.

End MongoFind.

(** ** Shapes of documents and collections *)

Module Shape.

(** A document as [add_cake] stores it: a string [_id] and no field outside
    the whitelist. *)
Definition is_cake (doc : dict) : bool :=
  forallb (fun k => str_in k CakeService.allowed_fields) (Dict.keys doc)
  && match Dict.get "_id" doc with
     | Some (PStr _) => true
     | _ => false
     end.

(** No two stored documents answer to the same identifier. *)
Definition unique_ids (st : Mongo.store) : Prop :=
  forall s, (List.length (filter (Mongo.has_id s) st) <= 1)%nat.

End Shape.

(** ** More sample data *)

Module Sample2.

(** [str()] on the values whose text the language fixes in one line:
    strings, [None], booleans and integers.  Floats and containers print
    through [repr], which is not modelled; the samples hold none. *)
Definition py_str (v : pyval) : string :=
  match v with
  | PStr s => s
  | PNone => "None"
  | PBool true => "True"
  | PBool false => "False"
  | PInt z => DecimalString.NilZero.string_of_int (Z.to_int z)
  | _ => ""
  end.

Definition tagged (id : string) : dict :=
  (Sample.stored id ++ [("baker", PStr "Ada")])%list.

Definition nameless : dict :=
  [("name", PStr "Cake 9"); ("yumFactor", PInt 1)].

Definition all_none : dict :=
  [("name", PNone); ("comment", PNone); ("imageUrl", PNone); ("yumFactor", PNone)].

(** A collection whose [find] hands back one document without [_id]. *)
Definition loose_finder : Listing.Finder unit :=
  {| Listing.find := fun _ => Eff.ret [Sample.stored "a"; nameless] |}.

End Sample2.

(** ** Tactics *)

(** Membership goals over the literal field lists. *)
Ltac fields :=
  let f := fresh "f" in
  let H := fresh "H" in
  intros f H; simpl in H |- *; intuition auto.

Ltac outside := simpl; intuition discriminate.

(** * Properties *)

(** ** Dictionaries *)

Module DictFacts.

Lemma mem_get (k : string) (d : dict) :
  Dict.mem k d = true <-> exists v, Dict.get k d = Some v.
Proof.
  induction d as [|[k' v'] rest IH]; simpl.
  - split; [discriminate | intros [v H]; discriminate].
  - destruct (String.eqb k k'); [split; eauto | exact IH].
Qed.

Lemma mem_keys (k : string) (d : dict) :
  Dict.mem k d = true <-> In k (Dict.keys d).
Proof.
  induction d as [|[k' v'] rest IH]; simpl.
  - split; [discriminate | contradiction].
  - destruct (String.eqb_spec k k') as [->|Hne].
    + split; auto.
    + rewrite IH. split; [auto | intros [E|H]; [congruence | exact H]].
Qed.

Lemma get_none_keys (k : string) (d : dict) :
  Dict.get k d = None <-> ~ In k (Dict.keys d).
Proof.
  rewrite <- mem_keys, mem_get. split.
  - intros E [v H]. congruence.
  - intros H. destruct (Dict.get k d); [exfalso; eauto | reflexivity].
Qed.

Lemma get_set_same (k : string) (v : pyval) (d : dict) :
  Dict.get k (Dict.set k v d) = Some v.
Proof.
  induction d as [|[k' v'] rest IH]; simpl.
  - now rewrite String.eqb_refl.
  - destruct (String.eqb k k') eqn:E; simpl; rewrite E; auto.
Qed.

Lemma get_set_other (k k' : string) (v : pyval) (d : dict) :
  k <> k' -> Dict.get k' (Dict.set k v d) = Dict.get k' d.
Proof.
  intros Hne. induction d as [|[k0 v0] rest IH]; simpl.
  - destruct (String.eqb_spec k' k); [congruence | reflexivity].
  - destruct (String.eqb_spec k k0) as [->|Hk]; simpl.
    + destruct (String.eqb_spec k' k0); [congruence | reflexivity].
    + now rewrite IH.
Qed.

(** Assigning never removes or reorders the keys already there. *)
Lemma keys_set (k : string) (v : pyval) (d : dict) :
  Dict.keys (Dict.set k v d)
  = if Dict.mem k d then Dict.keys d else (Dict.keys d ++ [k])%list.
Proof.
  induction d as [|[k0 v0] rest IH]; simpl; [reflexivity|].
  destruct (String.eqb k k0); simpl; [reflexivity|].
  rewrite IH. now destruct (Dict.mem k rest).
Qed.

Lemma set_wf (k : string) (v : pyval) (d : dict) :
  Dict.wf d -> Dict.wf (Dict.set k v d).
Proof.
  unfold Dict.wf. intros H. rewrite keys_set.
  destruct (Dict.mem k d) eqn:E; [exact H|].
  apply NoDup_app; [exact H | repeat constructor; intros [] | ].
  intros x Hx [<-|[]]. apply mem_keys in Hx. congruence.
Qed.

(** [d.update(other)], key by key: [other] decides where it has the key,
    [d] keeps its own value elsewhere. *)
Lemma get_update (k : string) (d other : dict) :
  Dict.wf other ->
  Dict.get k (Dict.update d other)
  = match Dict.get k other with
    | Some v => Some v
    | None => Dict.get k d
    end.
Proof.
  unfold Dict.update, Dict.wf. revert d.
  induction other as [|[k1 v1] rest IH]; intros d Hwf; simpl; [reflexivity|].
  inversion Hwf as [|? ? Hnotin Hrest]; subst.
  rewrite IH by exact Hrest.
  destruct (String.eqb_spec k k1) as [->|Hne].
  - apply get_none_keys in Hnotin. rewrite Hnotin. apply get_set_same.
  - now rewrite get_set_other by congruence.
Qed.

(** Assigning and updating keep the keys a dictionary has. *)
Lemma mem_set (k k' : string) (v : pyval) (d : dict) :
  Dict.mem k d = true -> Dict.mem k (Dict.set k' v d) = true.
Proof.
  induction d as [|[k0 v0] rest IH]; simpl; [discriminate|].
  destruct (String.eqb k' k0) eqn:E'; simpl; destruct (String.eqb k k0); auto.
Qed.

Lemma mem_update (k : string) (d other : dict) :
  Dict.mem k d = true -> Dict.mem k (Dict.update d other) = true.
Proof.
  unfold Dict.update. revert d.
  induction other as [|[k1 v1] rest IH]; intros d H; simpl; [exact H|].
  apply IH. now apply mem_set.
Qed.

End DictFacts.

(** ** Validation *)

Module ValidationFacts.

Import CakeService.

Lemma has_required_spec (data : dict) :
  has_required data = true
  <-> forall field, In field required_fields -> In field (Dict.keys data).
Proof.
  unfold has_required. rewrite forallb_forall.
  split; intros H f Hf; apply DictFacts.mem_keys; auto.
Qed.

Lemma has_required_false (data : dict) :
  has_required data = false
  <-> exists field, In field required_fields /\ ~ In field (Dict.keys data).
Proof.
  split.
  - intros H. unfold has_required in H.
    destruct (existsb (fun f => negb (Dict.mem f data)) required_fields) eqn:Hex.
    + apply existsb_exists in Hex. destruct Hex as [f [Hf Hm]].
      exists f. split; [exact Hf|]. rewrite <- DictFacts.mem_keys.
      apply negb_true_iff in Hm. congruence.
    + exfalso.
      assert (Hall : forallb (fun f => Dict.mem f data) required_fields = true).
      { apply forallb_forall. intros f Hf.
        destruct (Dict.mem f data) eqn:Em; [reflexivity|].
        assert (existsb (fun f => negb (Dict.mem f data)) required_fields = true)
          by (apply existsb_exists; exists f; rewrite Em; auto).
        congruence. }
      congruence.
  - intros [f [Hf Hn]]. destruct (has_required data) eqn:E; [|reflexivity].
    exfalso. apply Hn. now apply has_required_spec.
Qed.

Lemma str_in_spec (x : string) (xs : list string) :
  str_in x xs = true <-> In x xs.
Proof.
  unfold str_in. rewrite existsb_exists. split.
  - intros [y [Hy E]]. apply String.eqb_eq in E. now subst.
  - intros H. exists x. split; [exact H | apply String.eqb_refl].
Qed.

(** The names reported are the keys of [data] outside the whitelist. *)
Lemma unexpected_fields_spec (data : dict) (k : string) :
  In k (unexpected_fields data)
  <-> In k (Dict.keys data) /\ ~ In k allowed_fields.
Proof.
  unfold unexpected_fields. rewrite filter_In, negb_true_iff.
  destruct (str_in k allowed_fields) eqn:E.
  - apply str_in_spec in E. split; [intros [_ H]; discriminate | tauto].
  - split; [|tauto]. intros [Hk _]. split; [exact Hk|].
    intros Hin. apply str_in_spec in Hin. congruence.
Qed.

Lemma list_truthy_spec {A} (l : list A) : list_truthy l = false <-> l = [].
Proof. destruct l; simpl; split; congruence. Qed.

End ValidationFacts.

(** ** Identifiers *)

Module UuidFacts.

Import Uuid.

Lemma hex32_length (int : N) : List.length (hex32 int) = 32%nat.
Proof. unfold hex32. now rewrite List.length_map, List.length_seq. Qed.

(** The printed form, character by character. *)
Lemma str_shape (int : N) :
  exists h, List.length h = 32%nat /\ hex32 int = h /\
    String.length (str int) = 36%nat /\
    String.get 8 (str int) = Some "-"%char /\
    String.get 13 (str int) = Some "-"%char /\
    String.get 18 (str int) = Some "-"%char /\
    String.get 23 (str int) = Some "-"%char /\
    String.get 14 (str int) = Some (nth 12 h "0"%char).
Proof.
  exists (hex32 int). split; [apply hex32_length|]. split; [reflexivity|].
  unfold str. generalize (hex32_length int). generalize (hex32 int) as h.
  intros h Hlen.
  do 32 (destruct h as [|? h]; [discriminate Hlen|]).
  destruct h; [|discriminate Hlen].
  repeat split.
Qed.

(** Bits 76 to 79 of a generated identifier spell the version, 4. *)
Lemma version_nibble (rnd : N) : nibble (uuid4 rnd) 12 = 4%N.
Proof.
  unfold nibble, uuid4. change (4 * N.of_nat (31 - 12))%N with 76%N.
  apply N.bits_inj. intros n.
  rewrite N.land_spec, N.shiftr_spec', N.lor_spec, N.ldiff_spec.
  rewrite (N.shiftl_spec_high' 4 76 (n + 76)) by lia.
  rewrite (N.shiftl_spec_high' 0xf000 64 (n + 76)) by lia.
  replace (n + 76 - 76)%N with n by lia.
  replace (n + 76 - 64)%N with (n + 12)%N by lia.
  destruct (N.lt_ge_cases n 4) as [Hlt|Hge].
  - assert (Hn : n = 0%N \/ n = 1%N \/ n = 2%N \/ n = 3%N) by lia.
    destruct Hn as [ -> | [ -> | [ -> | -> ] ] ]; simpl;
      rewrite ?andb_false_r, ?andb_true_r, ?orb_false_r, ?orb_true_r; reflexivity.
  - change 15%N with (N.ones 4). rewrite N.ones_spec_high by exact Hge.
    rewrite andb_false_r. symmetry.
    apply (N.bits_above_log2 4 n). change (N.log2 4) with 2%N. lia.
Qed.

(** A generated identifier has the 36 characters of the canonical form,
    hyphens after the groups of 8, 4, 4 and 4 digits, and the version
    digit 4. *)
Lemma fresh_is_v4 (rnd : N) :
  String.length (fresh rnd) = 36%nat /\
  String.get 8 (fresh rnd) = Some "-"%char /\
  String.get 13 (fresh rnd) = Some "-"%char /\
  String.get 18 (fresh rnd) = Some "-"%char /\
  String.get 23 (fresh rnd) = Some "-"%char /\
  String.get 14 (fresh rnd) = Some "4"%char.
Proof.
  unfold fresh.
  destruct (str_shape (uuid4 rnd)) as [h [_ [Hh [H0 [H1 [H2 [H3 [H4 H5]]]]]]]].
  repeat (split; [assumption|]).
  rewrite H5, <- Hh. unfold hex32.
  change (nth 12 (map (fun pos => hex_digit (nibble (uuid4 rnd) pos)) (seq 0 32)) "0"%char)
    with (hex_digit (nibble (uuid4 rnd) 12)).
  now rewrite version_nibble.
Qed.

(** *** The whole canonical form *)

Lemma nibble_lt (int : N) (pos : nat) : (nibble int pos < 16)%N.
Proof.
  unfold nibble. change 15%N with (N.ones 4). rewrite N.land_ones.
  apply N.mod_lt. discriminate.
Qed.

Lemma below_16 (n : N) :
  (n < 16)%N ->
  In n [0; 1; 2; 3; 4; 5; 6; 7; 8; 9; 10; 11; 12; 13; 14; 15]%N.
Proof.
  intros H.
  change (In n (map N.of_nat (seq 0 16))).
  apply in_map_iff. exists (N.to_nat n). split; [lia|].
  apply in_seq. lia.
Qed.

Lemma hex_digit_is_hex (n : N) : (n < 16)%N -> is_hex (hex_digit n) = true.
Proof.
  intros H. apply below_16 in H. simpl in H.
  repeat (destruct H as [<-|H]; [reflexivity|]). contradiction.
Qed.

Lemma hex_value_digit (n : N) : (n < 16)%N -> hex_value (hex_digit n) = n.
Proof.
  intros H. apply below_16 in H. simpl in H.
  repeat (destruct H as [<-|H]; [reflexivity|]). contradiction.
Qed.

(** Bits 62 and 63 of a generated identifier spell the variant: the digit
    at the head of the fourth group is 8, 9, a or b. *)
Lemma variant_nibble (rnd : N) :
  In (nibble (uuid4 rnd) 16) [8; 9; 10; 11]%N.
Proof.
  pose proof (nibble_lt (uuid4 rnd) 16) as Hlt.
  assert (H3 : N.testbit (nibble (uuid4 rnd) 16) 3 = true).
  { unfold nibble, uuid4. change (4 * N.of_nat (31 - 16))%N with 60%N.
    rewrite N.land_spec, N.shiftr_spec', N.lor_spec, N.ldiff_spec, N.lor_spec.
    rewrite (N.shiftl_spec_low 4 76 (3 + 60)) by lia.
    rewrite (N.shiftl_spec_low 0xf000 64 (3 + 60)) by lia.
    rewrite (N.shiftl_spec_high' 0x8000 48 (3 + 60)) by lia.
    change (3 + 60 - 48)%N with 15%N.
    change (N.testbit 0x8000 15) with true.
    now rewrite orb_true_r. }
  assert (H2 : N.testbit (nibble (uuid4 rnd) 16) 2 = false).
  { unfold nibble, uuid4. change (4 * N.of_nat (31 - 16))%N with 60%N.
    rewrite N.land_spec, N.shiftr_spec', N.lor_spec, N.ldiff_spec, N.lor_spec,
      N.ldiff_spec.
    rewrite (N.shiftl_spec_low 4 76 (2 + 60)) by lia.
    rewrite (N.shiftl_spec_low 0xf000 64 (2 + 60)) by lia.
    rewrite (N.shiftl_spec_high' 0x8000 48 (2 + 60)) by lia.
    rewrite (N.shiftl_spec_high' 0xc000 48 (2 + 60)) by lia.
    change (2 + 60 - 48)%N with 14%N.
    change (N.testbit 0x8000 14) with false.
    change (N.testbit 0xc000 14) with true.
    simpl. now rewrite andb_false_r. }
  apply below_16 in Hlt. simpl in Hlt |- *.
  repeat (destruct Hlt as [E|Hlt];
          [rewrite <- E in H3, H2; try discriminate H3; try discriminate H2; auto 10|]).
  contradiction.
Qed.

(** The text of an identifier, written out on its 32 digits. *)
Lemma str_chars (int : N) :
  list_ascii_of_string (str int)
  = let d := fun pos => hex_digit (nibble int pos) in
    [d 0; d 1; d 2; d 3; d 4; d 5; d 6; d 7; "-"%char;
     d 8; d 9; d 10; d 11; "-"%char;
     d 12; d 13; d 14; d 15; "-"%char;
     d 16; d 17; d 18; d 19; "-"%char;
     d 20; d 21; d 22; d 23; d 24; d 25; d 26; d 27; d 28; d 29; d 30; d 31]%nat.
Proof. reflexivity. Qed.

(** A generated identifier has the canonical form of a version 4 UUID. *)
Lemma fresh_canonical (rnd : N) : canonical_v4 (fresh rnd) = true.
Proof.
  unfold canonical_v4, fresh. rewrite str_chars. cbv zeta.
  cbn [List.length Nat.eqb andb seq forallb nth allowed_at existsb orb].
  rewrite !hex_digit_is_hex by apply nibble_lt.
  rewrite version_nibble.
  pose proof (variant_nibble rnd) as Hv. simpl in Hv.
  destruct Hv as [<-|[<-|[<-|[<-|[]]]]]; reflexivity.
Qed.

(** *** Random bits show in the identifier *)

(** A set bit of a 16-bit constant moved up by [k] sits at [m + k] for a
    set bit [m] of the constant. *)
Lemma shifted_bit (c k n : N) :
  (c < 65536)%N ->
  N.testbit (N.shiftl c k) n = true ->
  exists m, In m [0; 1; 2; 3; 4; 5; 6; 7; 8; 9; 10; 11; 12; 13; 14; 15]%N
            /\ n = (m + k)%N /\ N.testbit c m = true.
Proof.
  intros Hc Hbit. destruct (N.lt_ge_cases n k) as [Hlow|Hhigh].
  - rewrite N.shiftl_spec_low in Hbit by exact Hlow. discriminate.
  - rewrite N.shiftl_spec_high' in Hbit by exact Hhigh.
    exists (n - k)%N. split; [|split; [lia | exact Hbit]].
    apply below_16. destruct (N.lt_ge_cases (n - k) 16) as [Hm|Hm]; [exact Hm|].
    exfalso. destruct (N.eq_dec c 0) as [->|Hnz].
    + rewrite N.bits_0 in Hbit. discriminate.
    + rewrite N.bits_above_log2 in Hbit; [discriminate|].
      apply N.lt_le_trans with (m := 16%N); [|exact Hm].
      apply N.log2_lt_pow2; [lia | exact Hc].
Qed.

Ltac no_fixed_bit Hfix H :=
  apply shifted_bit in H; [|reflexivity];
  let m := fresh "m" in
  let Hm := fresh "Hm" in
  let Hn := fresh "Hn" in
  let Hb := fresh "Hb" in
  destruct H as [m [Hm [Hn Hb]]]; simpl in Hm;
  repeat (destruct Hm as [<-|Hm];
          [subst; first [discriminate Hb | discriminate Hfix]|]);
  contradiction.

(** Outside the six bits it fixes, [uuid4] keeps the random bits. *)
Lemma uuid4_random_bit (rnd n : N) :
  (n < 128)%N -> fixed_bit n = false ->
  N.testbit (uuid4 rnd) n = N.testbit rnd n.
Proof.
  intros Hn Hfix. unfold uuid4.
  rewrite N.lor_spec, N.ldiff_spec, N.lor_spec, N.ldiff_spec, N.land_spec.
  rewrite N.ones_spec_low by exact Hn.
  assert (H1 : N.testbit (N.shiftl 4 76) n = false).
  { destruct (N.testbit (N.shiftl 4 76) n) eqn:H; [|reflexivity].
    exfalso. no_fixed_bit Hfix H. }
  assert (H2 : N.testbit (N.shiftl 0xf000 64) n = false).
  { destruct (N.testbit (N.shiftl 0xf000 64) n) eqn:H; [|reflexivity].
    exfalso. no_fixed_bit Hfix H. }
  assert (H3 : N.testbit (N.shiftl 0x8000 48) n = false).
  { destruct (N.testbit (N.shiftl 0x8000 48) n) eqn:H; [|reflexivity].
    exfalso. no_fixed_bit Hfix H. }
  assert (H4 : N.testbit (N.shiftl 0xc000 48) n = false).
  { destruct (N.testbit (N.shiftl 0xc000 48) n) eqn:H; [|reflexivity].
    exfalso. no_fixed_bit Hfix H. }
  rewrite H1, H2, H3, H4. simpl.
  now rewrite !andb_true_r, !orb_false_r.
Qed.

(** A bit of a digit is a bit of the number. *)
Lemma nibble_bit (int : N) (pos : nat) (j : N) :
  (j < 4)%N ->
  N.testbit (nibble int pos) j = N.testbit int (j + 4 * N.of_nat (31 - pos)).
Proof.
  intros Hj. unfold nibble. rewrite N.land_spec, N.shiftr_spec'.
  change 15%N with (N.ones 4). rewrite N.ones_spec_low by exact Hj.
  apply andb_true_r.
Qed.

(** Equal texts have equal digits. *)
Lemma str_digits (i1 i2 : N) (pos : nat) :
  str i1 = str i2 -> (pos < 32)%nat -> nibble i1 pos = nibble i2 pos.
Proof.
  intros Hstr Hpos.
  assert (Hchars : list_ascii_of_string (str i1) = list_ascii_of_string (str i2))
    by now rewrite Hstr.
  rewrite !str_chars in Hchars. cbv zeta in Hchars.
  assert (Hd : hex_digit (nibble i1 pos) = hex_digit (nibble i2 pos)).
  { injection Hchars as
      E0 E1 E2 E3 E4 E5 E6 E7 E8 E9 E10 E11 E12 E13 E14 E15
      E16 E17 E18 E19 E20 E21 E22 E23 E24 E25 E26 E27 E28 E29 E30 E31.
    do 32 (destruct pos as [|pos]; [assumption|]). lia. }
  rewrite <- (hex_value_digit (nibble i1 pos)) by apply nibble_lt.
  rewrite <- (hex_value_digit (nibble i2 pos)) by apply nibble_lt.
  now rewrite Hd.
Qed.

(** Equal texts come from numbers with the same 128 bits. *)
Lemma str_bits (i1 i2 n : N) :
  str i1 = str i2 -> (n < 128)%N -> N.testbit i1 n = N.testbit i2 n.
Proof.
  intros Hstr Hn.
  assert (Hq : (n / 4 < 32)%N) by (apply N.Div0.div_lt_upper_bound; lia).
  assert (Hsplit : (n mod 4 + 4 * (n / 4))%N = n)
    by (pose proof (N.div_mod n 4); lia).
  remember (n / 4)%N as q eqn:Eq. clear Eq.
  set (pos := (31 - N.to_nat q)%nat).
  assert (Hpos : N.of_nat (31 - pos) = q) by (unfold pos; lia).
  rewrite <- Hpos in Hsplit.
  assert (Hj : (n mod 4 < 4)%N) by (apply N.mod_lt; discriminate).
  rewrite <- Hsplit.
  rewrite <- (nibble_bit i1 pos _ Hj), <- (nibble_bit i2 pos _ Hj).
  rewrite (str_digits i1 i2 pos Hstr); [reflexivity | unfold pos; lia].
Qed.

(** Two draws that give the same identifier agree on every random bit:
    draws that differ in one of the 122 random bits give different
    identifiers. *)
Lemma fresh_determines_bits (r1 r2 n : N) :
  fresh r1 = fresh r2 -> (n < 128)%N -> fixed_bit n = false ->
  N.testbit r1 n = N.testbit r2 n.
Proof.
  intros Hfresh Hn Hfix.
  rewrite <- (uuid4_random_bit r1 n Hn Hfix), <- (uuid4_random_bit r2 n Hn Hfix).
  now apply str_bits.
Qed.

End UuidFacts.

(** ** Add *)

Module AddFacts.

Import CakeService.

(** The two checks of [add_cake], read on the keys of [data]. *)
Lemma passes_validation (data : dict) :
  (forall field, In field required_fields -> In field (Dict.keys data)) ->
  (forall k, In k (Dict.keys data) -> In k allowed_fields) ->
  has_required data = true /\ unexpected_fields data = [].
Proof.
  intros Hreq Hallowed. split.
  - now apply ValidationFacts.has_required_spec.
  - destruct (unexpected_fields data) as [|k rest] eqn:E; [reflexivity|].
    assert (Hk : In k (unexpected_fields data)) by (rewrite E; now left).
    apply ValidationFacts.unexpected_fields_spec in Hk.
    destruct Hk as [Hin Hout]. now apply Hallowed in Hin.
Qed.

(** Past validation, [add_cake] is one [insert_one] of the record that
    carries the generated identifier, and a reply chosen by how that call
    ends. *)
Lemma add_cake_validated {S} (cake_collection : Collection S) (data : dict)
      (rnd : N) (st : S) :
  has_required data = true ->
  unexpected_fields data = [] ->
  let record := Dict.set "_id" (PStr (Uuid.fresh rnd)) data in
  add_cake cake_collection data rnd st
  = match insert_one cake_collection record st with
    | (Returned _, st') =>
        (Returned (RBody [("message", PStr "Cake added successfully");
                          ("_id", PStr (Uuid.fresh rnd))], record), st')
    | (Raised e, st') =>
        (Returned (RStatus [("message", PStr "Server error while adding the cake");
                            ("error", PStr (exc_str e))] 500, record), st')
    end.
Proof.
  intros Hreq Hextra record. unfold add_cake.
  rewrite Hreq, Hextra. cbn [negb list_truthy].
  fold record. unfold Eff.try_except, Eff.bind, getitem.
  destruct (insert_one cake_collection record st) as [[u|e] st']; [|reflexivity].
  unfold record at 1. rewrite DictFacts.get_set_same. reflexivity.
Qed.

(** [add_cake] on the document collection, past validation: the record is
    refused by the encoder, or it meets a stored identifier, or it is
    appended. *)
Lemma add_cake_mongo (data : dict) (rnd : N) (st : Mongo.store) :
  has_required data = true ->
  unexpected_fields data = [] ->
  let id := Uuid.fresh rnd in
  let record := Dict.set "_id" (PStr id) data in
  let failed (e : exc) :=
    (Returned (RStatus [("message", PStr "Server error while adding the cake");
                        ("error", PStr (exc_str e))] 500, record), st) in
  add_cake Mongo.collection data rnd st
  = match Bson.refused record with
    | Some e => failed e
    | None =>
        if existsb (Mongo.has_id id) st then
          failed (mkExc DuplicateKeyError
                        ("E11000 duplicate key error, dup key: _id: " ++ id))
        else
          (Returned (RBody [("message", PStr "Cake added successfully");
                            ("_id", PStr id)], record), (st ++ [record])%list)
    end.
Proof.
  intros Hreq Hextra id record failed.
  rewrite (add_cake_validated _ data rnd st Hreq Hextra). cbv zeta.
  fold id. fold record. simpl insert_one. unfold Mongo.mem_insert_one.
  destruct (Bson.refused record) as [e|]; [reflexivity|].
  unfold record at 1. rewrite DictFacts.get_set_same.
  destruct (existsb (Mongo.has_id id) st); reflexivity.
Qed.

(** What a success reply of [add_cake] on the document collection tells. *)
Lemma add_cake_mongo_success (data payload data' : dict) (rnd : N)
      (st st' : Mongo.store) :
  has_required data = true ->
  unexpected_fields data = [] ->
  add_cake Mongo.collection data rnd st = (Returned (RBody payload, data'), st') ->
  let record := Dict.set "_id" (PStr (Uuid.fresh rnd)) data in
  payload = [("message", PStr "Cake added successfully");
             ("_id", PStr (Uuid.fresh rnd))]
  /\ data' = record
  /\ st' = (st ++ [record])%list
  /\ existsb (Mongo.has_id (Uuid.fresh rnd)) st = false.
Proof.
  intros Hreq Hextra Hadd record.
  rewrite (add_cake_mongo data rnd st Hreq Hextra) in Hadd. cbv zeta in Hadd.
  fold record in Hadd.
  destruct (Bson.refused record); [discriminate Hadd|].
  destruct (existsb (Mongo.has_id (Uuid.fresh rnd)) st); [discriminate Hadd|].
  inversion Hadd. auto.
Qed.

End AddFacts.

(** C1.  A mapping that lacks one of the four required fields is answered
    with the pair of the payload "Missing required fields in the data" and
    status 400, whatever other fields it has, including fields outside the
    whitelist: the presence check comes first.  The collection is left in
    the state it was in, the caller's mapping is untouched, and a recorder
    put around the collection logs no call, so nothing is inserted. *)
Theorem add_cake_missing_required
        (S : Type) (cake_collection : Collection S) (data : dict) (rnd : N)
        (st : S) (log : list call) :
  (exists field, In field ["name"; "comment"; "imageUrl"; "yumFactor"]
                 /\ ~ In field (Dict.keys data)) ->
  CakeService.add_cake cake_collection data rnd st
  = (Returned (RStatus (message "Missing required fields in the data") 400, data), st)
  /\ CakeService.add_cake (Recorder.wrap cake_collection) data rnd (st, log)
     = (Returned (RStatus (message "Missing required fields in the data") 400, data),
        (st, log)).
Proof.
  intros Hmissing.
  apply ValidationFacts.has_required_false in Hmissing.
  unfold CakeService.add_cake. rewrite Hmissing. split; reflexivity.
Qed.

(** C2.  A mapping that has the four required fields and some field outside
    the whitelist name, comment, imageUrl, yumFactor, _id is answered with
    status 400 and the message "Unexpected fields: " followed by the
    offending names joined by ", ".  The names listed are exactly the keys
    of the mapping outside the whitelist.  The collection state is
    unchanged and a recorder around the collection logs no call: no record
    is persisted and [insert_one] is not called. *)
Theorem add_cake_unexpected_fields
        (S : Type) (cake_collection : Collection S) (data : dict) (rnd : N)
        (st : S) (log : list call) :
  (forall field, In field ["name"; "comment"; "imageUrl"; "yumFactor"] ->
                 In field (Dict.keys data)) ->
  (exists k, In k (Dict.keys data)
             /\ ~ In k ["name"; "comment"; "imageUrl"; "yumFactor"; "_id"]) ->
  let extra := CakeService.unexpected_fields data in
  let reply := RStatus (message ("Unexpected fields: " ++ String.concat ", " extra)) 400 in
  CakeService.add_cake cake_collection data rnd st = (Returned (reply, data), st)
  /\ (forall k, In k extra
                <-> In k (Dict.keys data)
                    /\ ~ In k ["name"; "comment"; "imageUrl"; "yumFactor"; "_id"])
  /\ CakeService.add_cake (Recorder.wrap cake_collection) data rnd (st, log)
     = (Returned (reply, data), (st, log)).
Proof.
  intros Hreq [k [Hk Hout]] extra reply.
  apply ValidationFacts.has_required_spec in Hreq.
  assert (Hextra : list_truthy extra = true).
  { assert (Hin : In k extra) by (apply ValidationFacts.unexpected_fields_spec; auto).
    destruct extra; [contradiction | reflexivity]. }
  unfold CakeService.add_cake. rewrite Hreq. fold extra. rewrite Hextra.
  split; [reflexivity|]. split; [|reflexivity].
  intros k'. apply ValidationFacts.unexpected_fields_spec.
Qed.

(** C3.  For a mapping that passes both checks, the record handed to the
    collection is the mapping with [_id] set to the generated identifier:
    an [_id] supplied by the caller is overwritten and every other field
    is kept.  The identifier is the text of a version 4 UUID in its
    canonical 36-character form (8-4-4-4-12 lower-case hexadecimal digits,
    version digit 4, variant digit 8, 9, a or b), made from the random
    bytes of this call: it depends on nothing else, and another draw gives
    the same identifier only if it agrees on every one of the 122 random
    bits.  [add_cake] makes exactly one call on the collection,
    [insert_one] of that record, and when that call returns the reply is
    the payload with the message "Cake added successfully" and the
    generated identifier. *)
Theorem add_cake_assigns_uuid_and_inserts
        (S : Type) (cake_collection : Collection S) (data : dict) (rnd : N)
        (st st' : S) (log : list call) :
  (forall field, In field ["name"; "comment"; "imageUrl"; "yumFactor"] ->
                 In field (Dict.keys data)) ->
  (forall k, In k (Dict.keys data) ->
             In k ["name"; "comment"; "imageUrl"; "yumFactor"; "_id"]) ->
  let id := Uuid.fresh rnd in
  let record := Dict.set "_id" (PStr id) data in
  (String.length id = 36%nat /\ String.get 14 id = Some "4"%char)
  /\ Uuid.canonical_v4 id = true
  /\ (forall rnd' n, Uuid.fresh rnd' = id -> (n < 128)%N ->
                     Uuid.fixed_bit n = false ->
                     N.testbit rnd' n = N.testbit rnd n)
  /\ Dict.get "_id" record = Some (PStr id)
  /\ (forall k, k <> "_id" -> Dict.get k record = Dict.get k data)
  /\ snd (snd (CakeService.add_cake (Recorder.wrap cake_collection) data rnd (st, log)))
     = (log ++ [CallInsertOne record])%list
  /\ (insert_one cake_collection record st = (Returned tt, st') ->
      CakeService.add_cake cake_collection data rnd st
      = (Returned (RBody [("message", PStr "Cake added successfully");
                          ("_id", PStr id)], record), st')).
Proof.
  intros Hreq Hallowed id record.
  destruct (AddFacts.passes_validation data Hreq Hallowed) as [Hr He].
  split; [|split; [|split; [|split; [|split; [|split]]]]].
  - destruct (UuidFacts.fresh_is_v4 rnd) as [Hlen [_ [_ [_ [_ Hv]]]]]. now split.
  - apply UuidFacts.fresh_canonical.
  - intros rnd' n Hsame Hn Hfix.
    exact (UuidFacts.fresh_determines_bits rnd' rnd n Hsame Hn Hfix).
  - apply DictFacts.get_set_same.
  - intros k Hk. apply DictFacts.get_set_other. congruence.
  - rewrite (AddFacts.add_cake_validated _ data rnd (st, log) Hr He).
    fold id record. simpl. unfold Recorder.logged. simpl.
    destruct (insert_one cake_collection record st) as [[u|e] s1]; reflexivity.
  - intros Hins. rewrite (AddFacts.add_cake_validated _ data rnd st Hr He).
    fold id record. now rewrite Hins.
Qed.

(** C8.  For a mapping that passes both checks, when [insert_one] raises,
    [add_cake] does not let the exception through: it returns status 500
    with a payload made of the message "Server error while adding the cake"
    and, under "error", the text of the exception.  The payload has no
    [_id] entry. *)
Theorem add_cake_insert_failure
        (S : Type) (cake_collection : Collection S) (data : dict) (rnd : N)
        (st st' : S) (e : exc) :
  (forall field, In field ["name"; "comment"; "imageUrl"; "yumFactor"] ->
                 In field (Dict.keys data)) ->
  (forall k, In k (Dict.keys data) ->
             In k ["name"; "comment"; "imageUrl"; "yumFactor"; "_id"]) ->
  insert_one cake_collection (Dict.set "_id" (PStr (Uuid.fresh rnd)) data) st
  = (Raised e, st') ->
  exists payload data',
    CakeService.add_cake cake_collection data rnd st
    = (Returned (RStatus payload 500, data'), st')
    /\ payload = [("message", PStr "Server error while adding the cake");
                  ("error", PStr (exc_str e))]
    /\ Dict.get "error" payload = Some (PStr (exc_str e))
    /\ Dict.mem "_id" payload = false.
Proof.
  intros Hreq Hallowed Hins.
  destruct (AddFacts.passes_validation data Hreq Hallowed) as [Hr He].
  rewrite (AddFacts.add_cake_validated _ data rnd st Hr He). cbv zeta.
  rewrite Hins. eexists. eexists. split; [reflexivity|]. repeat split.
Qed.

(** C10.  For a mapping that passes both checks, the caller's mapping holds
    the generated identifier under [_id] when [add_cake] returns, both when
    [insert_one] returned and when it raised: the identifier is assigned
    into the caller's object, which is the object given to [insert_one]. *)
Theorem add_cake_mutates_argument
        (S : Type) (cake_collection : Collection S) (data : dict) (rnd : N)
        (st : S) :
  (forall field, In field ["name"; "comment"; "imageUrl"; "yumFactor"] ->
                 In field (Dict.keys data)) ->
  (forall k, In k (Dict.keys data) ->
             In k ["name"; "comment"; "imageUrl"; "yumFactor"; "_id"]) ->
  exists reply data' st',
    CakeService.add_cake cake_collection data rnd st = (Returned (reply, data'), st')
    /\ data' = Dict.set "_id" (PStr (Uuid.fresh rnd)) data
    /\ Dict.get "_id" data' = Some (PStr (Uuid.fresh rnd))
    /\ st' = snd (insert_one cake_collection data' st).
Proof.
  intros Hreq Hallowed.
  destruct (AddFacts.passes_validation data Hreq Hallowed) as [Hr He].
  rewrite (AddFacts.add_cake_validated _ data rnd st Hr He). cbv zeta.
  destruct (insert_one cake_collection _ st) as [[u|e] s1] eqn:E;
    do 3 eexists; (split; [reflexivity|]); (split; [reflexivity|]);
    (split; [apply DictFacts.get_set_same | now rewrite E]).
Qed.

(** ** Extended JSON *)

Module JsonFacts.

(** The entries of a plain document, one by one. *)
Lemma plain_cons (k : string) (v : pyval) (d : dict) :
  ExtJson.plain ((k, v) :: d)
  = negb (ExtJson.dollar k) && ExtJson.plain_value v && ExtJson.plain d.
Proof. reflexivity. Qed.

(** Assigning a plain value under a key without [$] keeps a document
    plain. *)
Lemma plain_set (k : string) (v : pyval) (d : dict) :
  ExtJson.plain d = true ->
  ExtJson.dollar k = false ->
  ExtJson.plain_value v = true ->
  ExtJson.plain (Dict.set k v d) = true.
Proof.
  intros Hd Hk Hv. induction d as [|[k0 v0] rest IH]; simpl Dict.set.
  - rewrite plain_cons, Hk, Hv. reflexivity.
  - rewrite plain_cons in Hd. apply andb_true_iff in Hd. destruct Hd as [Hd Hrest].
    apply andb_true_iff in Hd. destruct Hd as [Hk0 Hv0].
    destruct (String.eqb k k0).
    + now rewrite plain_cons, Hk0, Hv, Hrest.
    + now rewrite plain_cons, Hk0, Hv0, IH.
Qed.

End JsonFacts.

(** ** The in-memory collection *)

Module MongoFacts.

Import Mongo.

Lemma has_id_get (s : string) (doc : dict) :
  has_id s doc = true <-> Dict.get "_id" doc = Some (PStr s).
Proof.
  unfold has_id. destruct (Dict.get "_id" doc) as [[]|]; split;
    try discriminate; try (intros H; inversion H; apply String.eqb_refl).
  intros H. apply String.eqb_eq in H. now subst.
Qed.

Lemma find_none_existsb (s : string) (st : store) :
  find (has_id s) st = None <-> existsb (has_id s) st = false.
Proof.
  induction st as [|doc rest IH]; simpl; [tauto|].
  destruct (has_id s doc); simpl; [split; discriminate | exact IH].
Qed.

Lemma find_none_all (s : string) (st : store) :
  find (has_id s) st = None <-> forall doc, In doc st -> has_id s doc = false.
Proof.
  split.
  - intros H doc Hin. exact (find_none _ _ H doc Hin).
  - induction st as [|doc rest IH]; intros H; simpl; [reflexivity|].
    rewrite (H doc) by now left. apply IH. intros d Hd. apply H. now right.
Qed.

Lemma find_has_id (s : string) (st : store) (doc : dict) :
  find (has_id s) st = Some doc -> In doc st /\ Dict.get "_id" doc = Some (PStr s).
Proof.
  intros H. apply find_some in H. destruct H as [Hin Hid].
  split; [exact Hin | now apply has_id_get].
Qed.

(** A document appended under an identifier no stored document has is the
    one a lookup of that identifier finds. *)
Lemma find_appended (s : string) (st : store) (doc : dict) :
  existsb (has_id s) st = false -> has_id s doc = true ->
  find (has_id s) (st ++ [doc]) = Some doc.
Proof.
  intros Hnone Hid. induction st as [|d rest IH]; simpl in *.
  - now rewrite Hid.
  - destruct (has_id s d); [discriminate | now apply IH].
Qed.

Lemma find_replace_first (s : string) (new : dict) (st : store) :
  existsb (has_id s) st = true -> has_id s new = true ->
  find (has_id s) (replace_first s new st) = Some new.
Proof.
  intros Hex Hid. induction st as [|d rest IH]; simpl in *; [discriminate|].
  destruct (has_id s d) eqn:E; simpl.
  - now rewrite Hid.
  - rewrite E. now apply IH.
Qed.

(** Replacing under the same identifier moves no identifier. *)
Lemma ids_replace_first (s : string) (new : dict) (st : store) :
  has_id s new = true -> ids (replace_first s new st) = ids st.
Proof.
  intros Hid. induction st as [|d rest IH]; simpl; [reflexivity|].
  destruct (has_id s d) eqn:E; simpl.
  - apply has_id_get in Hid. apply has_id_get in E. now rewrite Hid, E.
  - now rewrite IH.
Qed.


Lemma remove_first_split (s : string) (st : store) :
  existsb (has_id s) st = true ->
  exists before doc after,
    st = (before ++ doc :: after)%list /\ has_id s doc = true
    /\ remove_first s st = (before ++ after)%list.
Proof.
  induction st as [|d rest IH]; simpl; [discriminate|].
  destruct (has_id s d) eqn:E; simpl.
  - intros _. exists [], d, rest. auto.
  - intros H. destruct (IH H) as [b [doc [a [-> [Hd Hr]]]]].
    exists (d :: b), doc, a. simpl. rewrite Hr. auto.
Qed.

End MongoFacts.

(** ** Update, Get and Delete *)

Module UpdateFacts.

Import CakeService.

(** With a record found, [update_cake] hands the merge to
    [find_one_and_replace] under the same identifier and answers by how
    that call ends; an exception of the collection goes to the caller. *)
Lemma update_cake_found {S} (cake_collection : Collection S)
      (cake_id : string) (data existing : dict) (st st1 : S) :
  find_one cake_collection cake_id st = (Returned (Some existing), st1) ->
  update_cake cake_collection cake_id data st
  = match find_one_and_replace cake_collection cake_id
                               (Dict.update existing data) st1 with
    | (Returned _, st2) =>
        (Returned (RBody (message "Cake updated successfully")), st2)
    | (Raised e, st2) => (Raised e, st2)
    end.
Proof.
  intros Hfind. unfold update_cake, Eff.bind. rewrite Hfind.
  destruct (find_one_and_replace _ _ _ st1) as [[r|e] st2]; reflexivity.
Qed.

(** [update_cake] on the in-memory collection, case by case. *)
Lemma update_cake_mongo (cake_id : string) (data : dict) (st : Mongo.store) :
  update_cake Mongo.collection cake_id data st
  = match find (Mongo.has_id cake_id) st with
    | None => (Returned (RStatus (message "Cake not found") 404), st)
    | Some existing =>
        let merged := Dict.update existing data in
        match Mongo.replacement_refused (Some existing) merged with
        | Some e => (Raised e, st)
        | None =>
            if Mongo.has_id cake_id merged then
              (Returned (RBody (message "Cake updated successfully")),
               Mongo.replace_first cake_id merged st)
            else (Raised Mongo.altered_id, st)
        end
    end.
Proof.
  destruct (find (Mongo.has_id cake_id) st) as [existing|] eqn:Hfind.
  - rewrite (update_cake_found Mongo.collection cake_id data existing st st)
      by (simpl; unfold Mongo.mem_find_one; now rewrite Hfind).
    cbv zeta. cbn [find_one_and_replace Mongo.collection].
    unfold Mongo.mem_find_one_and_replace. rewrite Hfind.
    destruct (Mongo.replacement_refused (Some existing) (Dict.update existing data))
      as [e|]; [reflexivity|].
    destruct (MongoFacts.find_has_id _ _ _ Hfind) as [_ Hid].
    assert (Hmem : Dict.mem "_id" (Dict.update existing data) = true).
    { apply DictFacts.mem_update. apply DictFacts.mem_get. eauto. }
    apply DictFacts.mem_get in Hmem. destruct Hmem as [v Hv]. rewrite Hv.
    destruct (Mongo.has_id cake_id (Dict.update existing data)); reflexivity.
  - unfold update_cake, Eff.bind. simpl. unfold Mongo.mem_find_one.
    now rewrite Hfind.
Qed.

(** A value is the same as itself. *)
Lemma pyval_eqb_refl (v : pyval) : pyval_eqb v v = true.
Proof.
  revert v. fix IH 1. intros [| b | z | bits | s | l | d]; simpl.
  - reflexivity.
  - apply Bool.eqb_reflx.
  - apply Z.eqb_refl.
  - apply N.eqb_refl.
  - apply String.eqb_refl.
  - induction l as [|x rest IHl]; [reflexivity|]. now rewrite IH, IHl.
  - induction d as [|[k x] rest IHd]; [reflexivity|].
    now rewrite String.eqb_refl, IH, IHd.
Qed.

(** Putting the stored document back is never refused. *)
Lemma replacement_same (doc : dict) :
  Mongo.replacement_refused (Some doc) doc = None.
Proof.
  unfold Mongo.replacement_refused, dict_eqb. now rewrite pyval_eqb_refl.
Qed.

End UpdateFacts.

(** C4.  Round trip on the document collection: when [add_cake] of a
    mapping with the four required fields and nothing outside the whitelist
    returns the success payload, looking up the identifier carried by that
    payload returns a record whose name, comment, imageUrl and yumFactor
    are the submitted ones.  The resource method [Cake.get] answers with
    that same record when the submitted values hold no Extended JSON
    form. *)
Theorem add_then_get_round_trip
        (data payload data' : dict) (rnd : N) (st st' : Mongo.store) (id : string) :
  (forall field, In field ["name"; "comment"; "imageUrl"; "yumFactor"] ->
                 In field (Dict.keys data)) ->
  (forall k, In k (Dict.keys data) ->
             In k ["name"; "comment"; "imageUrl"; "yumFactor"; "_id"]) ->
  CakeService.add_cake Mongo.collection data rnd st
  = (Returned (RBody payload, data'), st') ->
  Dict.get "_id" payload = Some (PStr id) ->
  exists record,
    CakeService.get_cake_by_id Mongo.collection id st' = (Returned (RJson record), st')
    /\ (ExtJson.plain data = true ->
        Resource.Cake_get Mongo.collection id st' = (Returned (RBody record), st'))
    /\ (forall field, In field ["name"; "comment"; "imageUrl"; "yumFactor"] ->
          Dict.get field record = Dict.get field data
          /\ Dict.get field record <> None)
    /\ Dict.get "_id" record = Some (PStr id).
Proof.
  intros Hreq Hallowed Hadd Hid.
  destruct (AddFacts.passes_validation data Hreq Hallowed) as [Hr He].
  destruct (AddFacts.add_cake_mongo_success _ _ _ _ _ _ Hr He Hadd)
    as [Hpayload [_ [Hst' Hfresh]]].
  subst payload st'. simpl in Hid. inversion Hid; subst id; clear Hid.
  set (record := Dict.set "_id" (PStr (Uuid.fresh rnd)) data).
  assert (Hrid : Dict.get "_id" record = Some (PStr (Uuid.fresh rnd)))
    by apply DictFacts.get_set_same.
  assert (Hfind : find (Mongo.has_id (Uuid.fresh rnd)) (st ++ [record])%list = Some record).
  { apply MongoFacts.find_appended; [exact Hfresh | now apply MongoFacts.has_id_get]. }
  assert (Htruthy : Dict.truthy record = true).
  { destruct record; [discriminate Hrid | reflexivity]. }
  assert (Hget : CakeService.get_cake_by_id Mongo.collection (Uuid.fresh rnd) (st ++ [record])%list
                 = (Returned (RJson record), (st ++ [record])%list)).
  { unfold CakeService.get_cake_by_id, Eff.try_except, Eff.bind. simpl.
    unfold Mongo.mem_find_one. rewrite Hfind. simpl. now rewrite Htruthy. }
  exists record. split; [exact Hget|]. split; [|split; [|exact Hrid]].
  - intros Hplain. unfold Resource.Cake_get, Eff.bind. rewrite Hget.
    assert (Hrec : ExtJson.plain record = true)
      by exact (JsonFacts.plain_set "_id" (PStr (Uuid.fresh rnd)) data Hplain eq_refl eq_refl).
    cbn [result_truthy]. unfold Resource.json_loads. now rewrite Hrec.
  - intros field Hfield.
    assert (Hne : "_id" <> field).
    { intros <-. simpl in Hfield. intuition discriminate. }
    unfold record. rewrite (DictFacts.get_set_other _ _ _ _ Hne). split; [reflexivity|].
    apply Hreq in Hfield. intros Hnone.
    apply DictFacts.get_none_keys in Hnone. contradiction.
Qed.


(** C6, as the code has it.  For an identifier that no stored record has,
    [delete_cake] and [update_cake] return the payload "Cake not found"
    with status 404, [get_cake_by_id] returns [None], which the resource
    method [Cake.get] turns into the same 404 payload, and none of them
    changes the collection. *)
Theorem not_found_uniform
        (cake_id : string) (data : dict) (st : Mongo.store) :
  (forall doc, In doc st -> Mongo.has_id cake_id doc = false) ->
  let not_found := RStatus (message "Cake not found") 404 in
  CakeService.get_cake_by_id Mongo.collection cake_id st = (Returned RNone, st)
  /\ Resource.Cake_get Mongo.collection cake_id st = (Returned not_found, st)
  /\ CakeService.delete_cake Mongo.collection cake_id st = (Returned not_found, st)
  /\ CakeService.update_cake Mongo.collection cake_id data st = (Returned not_found, st).
Proof.
  intros Hzero not_found.
  apply MongoFacts.find_none_all in Hzero.
  assert (Hget : CakeService.get_cake_by_id Mongo.collection cake_id st
                 = (Returned RNone, st)).
  { unfold CakeService.get_cake_by_id, Eff.try_except, Eff.bind. simpl.
    unfold Mongo.mem_find_one. now rewrite Hzero. }
  split; [exact Hget|]. split; [|split].
  - unfold Resource.Cake_get, Eff.bind. now rewrite Hget.
  - unfold CakeService.delete_cake, Eff.bind. simpl. unfold Mongo.mem_delete_one.
    apply MongoFacts.find_none_existsb in Hzero. now rewrite Hzero.
  - now rewrite UpdateFacts.update_cake_mongo, Hzero.
Qed.

(** C7.  On the document collection the identifier of a stored record is
    the one [add_cake] generated for it and no operation of the service
    changes it.  [update_cake] leaves the sequence of stored identifiers
    as it was, for every identifier and every update mapping, whether it
    returns or raises; [add_cake] either leaves the collection alone or
    appends one record whose identifier is the generated one;
    [get_cake_by_id] changes nothing; [delete_cake] either changes nothing
    or takes one record out and leaves the others. *)
Theorem identifier_immutable :
  (forall cake_id data st,
      Mongo.ids (snd (CakeService.update_cake Mongo.collection cake_id data st))
      = Mongo.ids st)
  /\ (forall data rnd st,
         let st' := snd (CakeService.add_cake Mongo.collection data rnd st) in
         st' = st
         \/ exists record, st' = (st ++ [record])%list
                           /\ Dict.get "_id" record = Some (PStr (Uuid.fresh rnd)))
  /\ (forall cake_id st,
         snd (CakeService.get_cake_by_id Mongo.collection cake_id st) = st)
  /\ (forall cake_id st,
         let st' := snd (CakeService.delete_cake Mongo.collection cake_id st) in
         st' = st
         \/ exists before doc after,
              st = (before ++ doc :: after)%list /\ st' = (before ++ after)%list).
Proof.
  split; [|split; [|split]].
  - intros cake_id data st. rewrite UpdateFacts.update_cake_mongo.
    destruct (find (Mongo.has_id cake_id) st) as [existing|]; [|reflexivity].
    cbv zeta.
    destruct (Mongo.replacement_refused (Some existing) (Dict.update existing data));
      [reflexivity|].
    destruct (Mongo.has_id cake_id (Dict.update existing data)) eqn:E;
      [|reflexivity].
    simpl. now apply MongoFacts.ids_replace_first.
  - intros data rnd st st'. subst st'.
    destruct (CakeService.has_required data) eqn:Hr;
      [|unfold CakeService.add_cake; rewrite Hr; now left].
    destruct (CakeService.unexpected_fields data) as [|k rest] eqn:He;
      [|unfold CakeService.add_cake; rewrite Hr, He; now left].
    rewrite (AddFacts.add_cake_mongo data rnd st Hr He). cbv zeta.
    destruct (Bson.refused _); [now left|].
    destruct (existsb _ st); [now left|]. right.
    eexists. split; [reflexivity | apply DictFacts.get_set_same].
  - intros cake_id st. unfold CakeService.get_cake_by_id, Eff.try_except, Eff.bind.
    simpl. unfold Mongo.mem_find_one. reflexivity.
  - intros cake_id st st'. subst st'. unfold CakeService.delete_cake, Eff.bind.
    simpl. unfold Mongo.mem_delete_one.
    destruct (existsb (Mongo.has_id cake_id) st) eqn:E; [|now left].
    right. destruct (MongoFacts.remove_first_split cake_id st E) as [b [d [a [H1 [_ H2]]]]].
    exists b, d, a. simpl. auto.
Qed.

(** C9, as the code has it.  When the lookup of [get_cake_by_id] raises, a
    [ValueError] is caught and answered with the payload "Cake not found"
    and status 404; an exception of any other class is not caught and goes
    to the caller. *)
Theorem get_cake_by_id_lookup_raises
        (S : Type) (cake_collection : Collection S) (cake_id : string)
        (st st' : S) (e : exc) :
  find_one cake_collection cake_id st = (Raised e, st') ->
  CakeService.get_cake_by_id cake_collection cake_id st
  = if is_ValueError e
    then (Returned (RStatus (message "Cake not found") 404), st')
    else (Raised e, st').
Proof.
  intros Hfind. unfold CakeService.get_cake_by_id, Eff.try_except, Eff.bind.
  rewrite Hfind. destruct (is_ValueError e); reflexivity.
Qed.

(** ** The properties on sample requests *)

Lemma add_cake_missing_required_witness :
  (exists field, In field ["name"; "comment"; "imageUrl"; "yumFactor"]
                 /\ ~ In field (Dict.keys Sample.no_yum_extra))
  /\ CakeService.add_cake Mongo.collection Sample.no_yum_extra 7 [Sample.stored "a"]
     = (Returned (RStatus (message "Missing required fields in the data") 400,
                  Sample.no_yum_extra), [Sample.stored "a"])
  /\ CakeService.add_cake (Recorder.wrap Mongo.collection) Sample.no_yum_extra 7
                          ([Sample.stored "a"], [])
     = (Returned (RStatus (message "Missing required fields in the data") 400,
                  Sample.no_yum_extra), ([Sample.stored "a"], [])).
Proof.
  assert (Hmissing : exists field, In field ["name"; "comment"; "imageUrl"; "yumFactor"]
                                   /\ ~ In field (Dict.keys Sample.no_yum_extra)).
  { exists "yumFactor". split; [simpl; auto | outside]. }
  split; [exact Hmissing|].
  exact (add_cake_missing_required _ Mongo.collection Sample.no_yum_extra 7
                                   [Sample.stored "a"] [] Hmissing).
Defined.

Lemma add_cake_unexpected_fields_witness :
  CakeService.add_cake Mongo.collection Sample.victoria_extra 7 []
  = (Returned (RStatus (message "Unexpected fields: extraField") 400,
               Sample.victoria_extra), [])
  /\ (forall k, In k ["extraField"]
                <-> In k (Dict.keys Sample.victoria_extra)
                    /\ ~ In k ["name"; "comment"; "imageUrl"; "yumFactor"; "_id"])
  /\ CakeService.add_cake (Recorder.wrap Mongo.collection) Sample.victoria_extra 7 ([], [])
     = (Returned (RStatus (message "Unexpected fields: extraField") 400,
                  Sample.victoria_extra), ([], [])).
Proof.
  apply (add_cake_unexpected_fields _ Mongo.collection Sample.victoria_extra 7 [] []).
  - fields.
  - exists "extraField". split; [simpl; auto 10 | outside].
Defined.

Lemma add_cake_assigns_uuid_and_inserts_witness :
  let id := "00000000-0000-4000-8000-000000000007" in
  let record := [("name", PStr "Victoria Sponge"); ("comment", PStr "classic");
                 ("imageUrl", PStr "v.jpg"); ("yumFactor", PInt 5); ("_id", PStr id)] in
  Dict.get "_id" Sample.victoria_with_id = Some (PStr "chosen-by-the-client")
  /\ insert_one Mongo.collection record [] = (Returned tt, [record])
  /\ (String.length id = 36%nat /\ String.get 14 id = Some "4"%char)
  /\ Uuid.canonical_v4 id = true
  /\ (forall rnd' n, Uuid.fresh rnd' = id -> (n < 128)%N ->
                     Uuid.fixed_bit n = false ->
                     N.testbit rnd' n = N.testbit 7 n)
  /\ Dict.get "_id" record = Some (PStr id)
  /\ (forall k, k <> "_id" -> Dict.get k record = Dict.get k Sample.victoria_with_id)
  /\ snd (snd (CakeService.add_cake (Recorder.wrap Mongo.collection)
                                    Sample.victoria_with_id 7 ([], [])))
     = [CallInsertOne record]
  /\ CakeService.add_cake Mongo.collection Sample.victoria_with_id 7 []
     = (Returned (RBody [("message", PStr "Cake added successfully");
                         ("_id", PStr id)], record), [record]).
Proof.
  intros id record. split; [reflexivity|]. split; [reflexivity|].
  destruct (add_cake_assigns_uuid_and_inserts
              _ Mongo.collection Sample.victoria_with_id 7 [] [record] [])
    as [Hv4 [Hform [Hbits [Hid [Hrest [Hlog Hreply]]]]]]; [fields | fields |].
  split; [exact Hv4|]. split; [exact Hform|]. split; [exact Hbits|].
  split; [exact Hid|]. split; [exact Hrest|].
  split; [exact Hlog|]. apply Hreply. reflexivity.
Defined.

Lemma add_then_get_round_trip_witness :
  let id := "00000000-0000-4000-8000-000000000007" in
  let record := (Sample.victoria ++ [("_id", PStr id)])%list in
  let payload := [("message", PStr "Cake added successfully"); ("_id", PStr id)] in
  let st := [Sample.stored "a"] in
  let st' := [Sample.stored "a"; record] in
  CakeService.add_cake Mongo.collection Sample.victoria 7 st
  = (Returned (RBody payload, record), st')
  /\ exists found,
      CakeService.get_cake_by_id Mongo.collection id st' = (Returned (RJson found), st')
      /\ Resource.Cake_get Mongo.collection id st' = (Returned (RBody found), st')
      /\ (forall field, In field ["name"; "comment"; "imageUrl"; "yumFactor"] ->
            Dict.get field found = Dict.get field Sample.victoria
            /\ Dict.get field found <> None)
      /\ Dict.get "_id" found = Some (PStr id).
Proof.
  intros id record payload st st'.
  assert (Hadd : CakeService.add_cake Mongo.collection Sample.victoria 7 st
                 = (Returned (RBody payload, record), st')) by reflexivity.
  split; [exact Hadd|].
  destruct (add_then_get_round_trip Sample.victoria payload record 7 st st' id)
    as [found [Hget [Hres [Hfields Hid]]]]; [fields | fields | exact Hadd | reflexivity |].
  exists found. split; [exact Hget|]. split; [apply Hres; reflexivity|].
  split; [exact Hfields | exact Hid].
Defined.



(** C6 as stated fails for Get: with no record "123" stored, the service
    method returns [None], not a pair of a payload and 404. *)
Lemma get_cake_by_id_not_found_returns_None :
  let st := [Sample.stored "a"] in
  (forall doc, In doc st -> Mongo.has_id "123" doc = false)
  /\ CakeService.get_cake_by_id Mongo.collection "123" st = (Returned RNone, st)
  /\ (forall body status,
         fst (CakeService.get_cake_by_id Mongo.collection "123" st)
         <> Returned (RStatus body status)).
Proof.
  intros st. split; [|split].
  - intros doc [<-|[]]. reflexivity.
  - reflexivity.
  - intros body status H. discriminate H.
Qed.

Lemma not_found_uniform_witness :
  let st := [Sample.stored "a"] in
  let data := [("name", PStr "Updated Cake")] in
  let not_found := RStatus (message "Cake not found") 404 in
  CakeService.get_cake_by_id Mongo.collection "123" st = (Returned RNone, st)
  /\ Resource.Cake_get Mongo.collection "123" st = (Returned not_found, st)
  /\ CakeService.delete_cake Mongo.collection "123" st = (Returned not_found, st)
  /\ CakeService.update_cake Mongo.collection "123" data st = (Returned not_found, st).
Proof.
  intros st data not_found.
  apply (not_found_uniform "123" data st).
  intros doc [<-|[]]. reflexivity.
Defined.

Lemma add_cake_insert_failure_witness :
  let id := "00000000-0000-4000-8000-000000000007" in
  let st := [Sample.stored id] in
  let e := mkExc DuplicateKeyError
                 ("E11000 duplicate key error, dup key: _id: " ++ id) in
  exists payload data',
    CakeService.add_cake Mongo.collection Sample.victoria 7 st
    = (Returned (RStatus payload 500, data'), st)
    /\ payload = [("message", PStr "Server error while adding the cake");
                  ("error", PStr (exc_str e))]
    /\ Dict.get "error" payload = Some (PStr (exc_str e))
    /\ Dict.mem "_id" payload = false.
Proof.
  intros id st e.
  apply (add_cake_insert_failure _ Mongo.collection Sample.victoria 7 st st e).
  - fields.
  - fields.
  - reflexivity.
Defined.

(** C9 as stated fails: when the lookup raises an exception that is not a
    [ValueError], here a connection failure, [get_cake_by_id] raises it to
    its caller and returns no payload. *)
Lemma get_cake_by_id_propagates :
  find_one (Failing.raising Failing.unreachable) "123" tt
  = (Raised Failing.unreachable, tt)
  /\ CakeService.get_cake_by_id (Failing.raising Failing.unreachable) "123" tt
     = (Raised Failing.unreachable, tt)
  /\ (forall r, fst (CakeService.get_cake_by_id
                       (Failing.raising Failing.unreachable) "123" tt)
                <> Returned r).
Proof.
  split; [reflexivity|]. split; [reflexivity|]. intros r H. discriminate H.
Qed.

Lemma get_cake_by_id_lookup_raises_witness :
  find_one (Failing.raising Failing.malformed) "not-a-uuid" tt
  = (Raised Failing.malformed, tt)
  /\ CakeService.get_cake_by_id (Failing.raising Failing.malformed) "not-a-uuid" tt
     = (Returned (RStatus (message "Cake not found") 404), tt).
Proof.
  split; [reflexivity|].
  exact (get_cake_by_id_lookup_raises _ (Failing.raising Failing.malformed)
           "not-a-uuid" tt tt Failing.malformed eq_refl).
Defined.

Lemma add_cake_mutates_argument_witness :
  Dict.get "_id" Sample.victoria = None
  /\ exists reply data' st',
      CakeService.add_cake Mongo.collection Sample.victoria 7 [] = (Returned (reply, data'), st')
      /\ data' = Dict.set "_id" (PStr (Uuid.fresh 7)) Sample.victoria
      /\ Dict.get "_id" data' = Some (PStr (Uuid.fresh 7))
      /\ st' = snd (insert_one Mongo.collection data' []).
Proof.
  split; [reflexivity|].
  apply (add_cake_mutates_argument _ Mongo.collection Sample.victoria 7 []).
  - fields.
  - fields.
Defined.

(** * More of the service *)

(** ** Dictionaries, continued *)

Module DictMore.

Lemma set_get_same (k : string) (v : pyval) (d : dict) :
  Dict.get k d = Some v -> Dict.set k v d = d.
Proof.
  induction d as [|[k0 v0] rest IH]; simpl; [discriminate|].
  destruct (String.eqb k k0) eqn:E.
  - intros H. now inversion H.
  - intros H. now rewrite IH.
Qed.

Lemma in_get (k : string) (v : pyval) (d : dict) :
  Dict.wf d -> In (k, v) d -> Dict.get k d = Some v.
Proof.
  unfold Dict.wf. induction d as [|[k0 v0] rest IH]; simpl; [contradiction|].
  intros Hwf Hin. inversion Hwf as [|? ? Hnotin Hrest]; subst.
  destruct Hin as [E|Hin].
  - inversion E; subst. now rewrite String.eqb_refl.
  - destruct (String.eqb_spec k k0) as [->|Hne]; [|now apply IH].
    exfalso. apply Hnotin. apply (in_map fst) in Hin. exact Hin.
Qed.

(** Assigning values a dictionary already has changes nothing. *)
Lemma update_same (d other : dict) :
  (forall k v, In (k, v) other -> Dict.get k d = Some v) ->
  Dict.update d other = d.
Proof.
  unfold Dict.update. induction other as [|[k v] rest IH]; intros H; simpl;
    [reflexivity|].
  rewrite set_get_same by (apply H; now left).
  apply IH. intros k' v' Hin. apply H. now right.
Qed.

Lemma update_wf (d other : dict) : Dict.wf d -> Dict.wf (Dict.update d other).
Proof.
  unfold Dict.update. revert d.
  induction other as [|[k v] rest IH]; intros d H; simpl; [exact H|].
  apply IH. now apply DictFacts.set_wf.
Qed.

(** The keys after [d.update(other)]: those of [d], in place, then the keys
    that only [other] has. *)
Lemma keys_update (d other : dict) :
  exists extra,
    Dict.keys (Dict.update d other) = (Dict.keys d ++ extra)%list
    /\ forall k, In k extra -> In k (Dict.keys other) /\ ~ In k (Dict.keys d).
Proof.
  unfold Dict.update. revert d.
  induction other as [|[k v] rest IH]; intros d; simpl.
  - exists []. split; [now rewrite app_nil_r | contradiction].
  - destruct (IH (Dict.set k v d)) as [extra [Hkeys Hextra]].
    rewrite DictFacts.keys_set in Hkeys.
    destruct (Dict.mem k d) eqn:Hmem.
    + exists extra. split; [exact Hkeys|].
      intros k' Hk'. destruct (Hextra k' Hk') as [Hin Hout].
      rewrite DictFacts.keys_set, Hmem in Hout. split; [now right | exact Hout].
    + exists (k :: extra). split; [now rewrite Hkeys, <- app_assoc|].
      intros k' [<-|Hk'].
      * split; [now left|]. intros Hin. apply DictFacts.mem_keys in Hin. congruence.
      * destruct (Hextra k' Hk') as [Hin Hout].
        rewrite DictFacts.keys_set, Hmem in Hout. split; [now right|].
        intros Hd. apply Hout. apply in_or_app. now left.
Qed.

Lemma filter_all {A} (f : A -> bool) (l : list A) :
  (forall x, In x l -> f x = true) -> filter f l = l.
Proof.
  induction l as [|x rest IH]; intros H; simpl; [reflexivity|].
  rewrite (H x) by now left. f_equal. apply IH. intros y Hy. apply H. now right.
Qed.

End DictMore.

(** ** Shapes *)

Module ShapeFacts.

Import Shape.

Lemma is_cake_spec (doc : dict) :
  is_cake doc = true
  <-> (forall k, In k (Dict.keys doc) -> In k CakeService.allowed_fields)
      /\ exists s, Dict.get "_id" doc = Some (PStr s).
Proof.
  unfold is_cake. rewrite andb_true_iff, forallb_forall. split.
  - intros [Hkeys Hid]. split.
    + intros k Hk. apply ValidationFacts.str_in_spec. now apply Hkeys.
    + destruct (Dict.get "_id" doc) as [[]|]; try discriminate. eauto.
  - intros [Hkeys [s Hid]]. split.
    + intros k Hk. apply ValidationFacts.str_in_spec. now apply Hkeys.
    + now rewrite Hid.
Qed.

(** The projection of the listing shows a cake whole. *)
Lemma project_cake (doc : dict) :
  is_cake doc = true -> MongoFind.project Listing.projection doc = doc.
Proof.
  intros H. apply is_cake_spec in H. destruct H as [Hkeys _].
  apply DictMore.filter_all. intros [k v] Hin.
  apply ValidationFacts.str_in_spec.
  assert (Hk : In k (Dict.keys doc)) by (apply (in_map fst) in Hin; exact Hin).
  apply Hkeys in Hk. simpl in Hk |- *. intuition auto.
Qed.

Lemma keys_project (fields : list string) (doc : dict) (k : string) :
  In k (Dict.keys (MongoFind.project fields doc))
  <-> In k (Dict.keys doc) /\ In k fields.
Proof.
  unfold MongoFind.project, Dict.keys. rewrite in_map_iff. split.
  - intros [[k' v] [E Hin]]. simpl in E. subst k'.
    apply filter_In in Hin. destruct Hin as [Hin Hf]. split.
    + apply (in_map fst) in Hin. exact Hin.
    + now apply ValidationFacts.str_in_spec.
  - intros [Hin Hf]. apply in_map_iff in Hin. destruct Hin as [[k' v] [E Hin]].
    simpl in E. subst k'. exists (k, v). split; [reflexivity|].
    apply filter_In. split; [exact Hin | now apply ValidationFacts.str_in_spec].
Qed.

Lemma get_project (fields : list string) (doc : dict) (k : string) :
  In k fields -> Dict.get k (MongoFind.project fields doc) = Dict.get k doc.
Proof.
  intros Hk. induction doc as [|[k0 v0] rest IH]; simpl; [reflexivity|].
  destruct (str_in k0 fields) eqn:E; simpl.
  - now rewrite IH.
  - destruct (String.eqb_spec k k0) as [->|Hne]; [|exact IH].
    apply ValidationFacts.str_in_spec in Hk. congruence.
Qed.

(** Counting the documents that answer to an identifier. *)
Lemma filter_none (s : string) (st : Mongo.store) :
  existsb (Mongo.has_id s) st = false -> filter (Mongo.has_id s) st = [].
Proof.
  induction st as [|d rest IH]; simpl; [reflexivity|].
  destruct (Mongo.has_id s d); simpl; [discriminate | exact IH].
Qed.

Lemma filter_remove_first (s t : string) (st : Mongo.store) :
  (List.length (filter (Mongo.has_id t) (Mongo.remove_first s st))
   <= List.length (filter (Mongo.has_id t) st))%nat.
Proof.
  induction st as [|d rest IH]; simpl; [lia|].
  destruct (Mongo.has_id s d); simpl.
  - destruct (Mongo.has_id t d); simpl; lia.
  - destruct (Mongo.has_id t d); simpl; lia.
Qed.

Lemma filter_remove_first_same (s : string) (st : Mongo.store) :
  filter (Mongo.has_id s) (Mongo.remove_first s st)
  = tl (filter (Mongo.has_id s) st).
Proof.
  induction st as [|d rest IH]; simpl; [reflexivity|].
  destruct (Mongo.has_id s d) eqn:E; simpl; [reflexivity|].
  now rewrite E.
Qed.

Lemma has_id_inj (s t : string) (doc : dict) :
  Mongo.has_id s doc = true -> Mongo.has_id t doc = true -> s = t.
Proof.
  intros Hs Ht. apply MongoFacts.has_id_get in Hs. apply MongoFacts.has_id_get in Ht.
  congruence.
Qed.

Lemma filter_replace_first (s t : string) (new : dict) (st : Mongo.store) :
  Mongo.has_id s new = true ->
  List.length (filter (Mongo.has_id t) (Mongo.replace_first s new st))
  = List.length (filter (Mongo.has_id t) st).
Proof.
  intros Hnew. induction st as [|d rest IH]; simpl; [reflexivity|].
  destruct (Mongo.has_id s d) eqn:Hd; simpl.
  - destruct (Mongo.has_id t new) eqn:Htn, (Mongo.has_id t d) eqn:Htd;
      simpl; try reflexivity; exfalso.
    + assert (s = t) by exact (has_id_inj s t new Hnew Htn). subst. congruence.
    + assert (s = t) by exact (has_id_inj s t d Hd Htd). subst. congruence.
  - destruct (Mongo.has_id t d); simpl; now rewrite IH.
Qed.

Lemma replace_first_found (s : string) (doc : dict) (st : Mongo.store) :
  find (Mongo.has_id s) st = Some doc -> Mongo.replace_first s doc st = st.
Proof.
  induction st as [|d rest IH]; simpl; [discriminate|].
  destruct (Mongo.has_id s d).
  - intros H. now inversion H.
  - intros H. now rewrite IH.
Qed.

Lemma remove_first_length (s : string) (st : Mongo.store) :
  existsb (Mongo.has_id s) st = true ->
  S (List.length (Mongo.remove_first s st)) = List.length st.
Proof.
  induction st as [|d rest IH]; simpl; [discriminate|].
  destruct (Mongo.has_id s d); simpl; [reflexivity|].
  intros H. now rewrite IH.
Qed.

Lemma remove_first_others (s : string) (st : Mongo.store) (doc : dict) :
  In doc st -> Mongo.has_id s doc = false -> In doc (Mongo.remove_first s st).
Proof.
  intros Hin Hid. induction st as [|d rest IH]; simpl in *; [contradiction|].
  destruct Hin as [->|Hin].
  - rewrite Hid. now left.
  - destruct (Mongo.has_id s d); [exact Hin | right; auto].
Qed.

Lemma remove_first_subset (s : string) (st : Mongo.store) (doc : dict) :
  In doc (Mongo.remove_first s st) -> In doc st.
Proof.
  induction st as [|d rest IH]; simpl; [contradiction|].
  destruct (Mongo.has_id s d); simpl; [now right|].
  intros [->|H]; [now left | right; auto].
Qed.

End ShapeFacts.

(** ** Listing *)

Module ListingFacts.

Import Listing.

(** The loop over the cakes, when each cake has an [_id]. *)
Lemma convert_ids_all {S} (py_str : pyval -> string) (cakes : list dict) (st : S) :
  (forall cake, In cake cakes -> Dict.mem "_id" cake = true) ->
  convert_ids py_str cakes st
  = (Returned (map (fun cake =>
                      match Dict.get "_id" cake with
                      | Some v => Dict.set "_id" (PStr (py_str v)) cake
                      | None => cake
                      end) cakes), st).
Proof.
  induction cakes as [|cake rest IH]; intros H; simpl; [reflexivity|].
  assert (Hid : Dict.mem "_id" cake = true) by (apply H; now left).
  apply DictFacts.mem_get in Hid. destruct Hid as [v Hv].
  unfold Eff.bind, getitem. rewrite Hv. simpl.
  rewrite IH by (intros c Hc; apply H; now right). reflexivity.
Qed.

(** The loop stops at the first cake without [_id]. *)
Lemma convert_ids_missing {S} (py_str : pyval -> string) (cakes : list dict) (st : S) :
  (exists cake, In cake cakes /\ Dict.mem "_id" cake = false) ->
  convert_ids py_str cakes st = (Raised (mkExc KeyError "_id"), st).
Proof.
  induction cakes as [|cake rest IH]; intros [c [Hin Hc]]; [contradiction|].
  simpl. unfold Eff.bind, getitem.
  destruct (Dict.get "_id" cake) as [v|] eqn:Hv; [|reflexivity].
  simpl. rewrite IH; [reflexivity|].
  destruct Hin as [->|Hin]; [|eauto].
  exfalso. assert (Dict.mem "_id" c = true) by (apply DictFacts.mem_get; eauto).
  congruence.
Qed.

(** On a collection of cakes the listing is the collection itself. *)
Lemma list_cakes (py_str : pyval -> string) (st : Mongo.store) :
  str_law py_str ->
  (forall doc, In doc st -> Shape.is_cake doc = true) ->
  get_all_cakes py_str MongoFind.finder st = (Returned st, st).
Proof.
  intros Hstr Hcakes.
  assert (Hshown : map (MongoFind.project projection) st = st).
  { rewrite <- (map_id st) at 2. apply map_ext_in.
    intros doc Hdoc. now apply ShapeFacts.project_cake, Hcakes. }
  unfold get_all_cakes, Eff.bind. simpl. unfold MongoFind.mem_find.
  rewrite Hshown, convert_ids_all.
  - f_equal. f_equal. rewrite <- (map_id st) at 2. apply map_ext_in.
    intros doc Hdoc. apply Hcakes, ShapeFacts.is_cake_spec in Hdoc.
    destruct Hdoc as [_ [s Hs]]. rewrite Hs, Hstr.
    now apply DictMore.set_get_same.
  - intros doc Hdoc. apply Hcakes, ShapeFacts.is_cake_spec in Hdoc.
    destruct Hdoc as [_ [s Hs]]. apply DictFacts.mem_get. eauto.
Qed.

(** The record [add_cake] builds from a validated mapping is a cake. *)
Lemma record_is_cake (data : dict) (id : string) :
  (forall k, In k (Dict.keys data) -> In k CakeService.allowed_fields) ->
  Shape.is_cake (Dict.set "_id" (PStr id) data) = true.
Proof.
  intros Hallowed. apply ShapeFacts.is_cake_spec. split.
  - intros k Hk. rewrite DictFacts.keys_set in Hk.
    destruct (Dict.mem "_id" data); [now apply Hallowed|].
    apply in_app_or in Hk. destruct Hk as [Hk|[<-|[]]]; [now apply Hallowed|].
    simpl. auto 10.
  - eexists. apply DictFacts.get_set_same.
Qed.

End ListingFacts.

(** X1.  On the document collection, when every stored document has an
    [_id], [get_all_cakes] returns one entry per stored document, in
    storage order, and leaves the collection as it was.  Entry [n] holds
    the fields of document [n] that the projection names, with their
    values, and nothing else; its [_id] is the [str()] of the stored one. *)
Theorem get_all_cakes_projects
        (py_str : pyval -> string) (st : Mongo.store) :
  (forall doc, In doc st -> Dict.mem "_id" doc = true) ->
  exists cakes,
    Listing.get_all_cakes py_str MongoFind.finder st = (Returned cakes, st)
    /\ List.length cakes = List.length st
    /\ forall n cake, nth_error cakes n = Some cake ->
         exists doc v,
           nth_error st n = Some doc
           /\ Dict.get "_id" doc = Some v
           /\ Dict.get "_id" cake = Some (PStr (py_str v))
           /\ (forall k, In k ["name"; "comment"; "imageUrl"; "yumFactor"] ->
                         Dict.get k cake = Dict.get k doc)
           /\ (forall k, In k (Dict.keys cake) ->
                         In k (Dict.keys doc)
                         /\ In k ["_id"; "name"; "comment"; "imageUrl"; "yumFactor"]).
Proof.
  intros Hids.
  set (shown := map (MongoFind.project Listing.projection) st).
  assert (Hshown : forall cake, In cake shown -> Dict.mem "_id" cake = true).
  { intros cake Hin. apply in_map_iff in Hin. destruct Hin as [doc [<- Hdoc]].
    apply DictFacts.mem_get. apply Hids, DictFacts.mem_get in Hdoc.
    destruct Hdoc as [v Hv]. exists v.
    rewrite ShapeFacts.get_project; [exact Hv | simpl; auto]. }
  eexists. split; [|split].
  - unfold Listing.get_all_cakes, Eff.bind. simpl. unfold MongoFind.mem_find.
    fold shown. rewrite (ListingFacts.convert_ids_all py_str shown st Hshown).
    reflexivity.
  - unfold shown. now rewrite !List.length_map.
  - intros n cake Hn. unfold shown in Hn. rewrite !nth_error_map in Hn.
    destruct (nth_error st n) as [doc|] eqn:Hdoc; [|discriminate Hn].
    simpl in Hn. inversion Hn as [Hcake]; clear Hn.
    assert (Hin : In doc st) by (eapply nth_error_In; eauto).
    apply Hids, DictFacts.mem_get in Hin. destruct Hin as [v Hv].
    assert (Hpv : Dict.get "_id" (MongoFind.project Listing.projection doc) = Some v).
    { rewrite ShapeFacts.get_project; [exact Hv | simpl; auto]. }
    rewrite Hpv. exists doc, v. split; [reflexivity|]. split; [exact Hv|].
    split; [apply DictFacts.get_set_same|]. split.
    + intros k Hk.
      assert (Hne : "_id" <> k) by (intros <-; simpl in Hk; intuition discriminate).
      rewrite (DictFacts.get_set_other _ _ _ _ Hne).
      apply ShapeFacts.get_project. simpl in Hk |- *. intuition auto.
    + intros k Hk. rewrite DictFacts.keys_set in Hk.
      assert (Hm : Dict.mem "_id" (MongoFind.project Listing.projection doc) = true)
        by (apply DictFacts.mem_get; eauto).
      rewrite Hm in Hk. now apply ShapeFacts.keys_project in Hk.
Qed.

(** X2.  On a document collection that holds cakes only (a string [_id]
    and no field outside the whitelist, as [add_cake] stores them),
    [get_all_cakes] returns the stored documents as they are, in storage
    order, and changes nothing. *)
Theorem get_all_cakes_verbatim
        (py_str : pyval -> string) (st : Mongo.store) :
  str_law py_str ->
  (forall doc, In doc st -> Shape.is_cake doc = true) ->
  Listing.get_all_cakes py_str MongoFind.finder st = (Returned st, st)
  /\ Listing.Cakes_get py_str MongoFind.finder st = (Returned st, st).
Proof.
  intros Hstr Hcakes.
  assert (Hget := ListingFacts.list_cakes py_str st Hstr Hcakes).
  split; exact Hget.
Qed.

(** X3.  For every collection, when [find] hands back a document without
    [_id], [get_all_cakes] raises [KeyError] and returns no list: the
    subscript [cake["_id"]] is not guarded. *)
Theorem get_all_cakes_missing_id
        (S : Type) (py_str : pyval -> string) (cake_collection : Listing.Finder S)
        (cakes : list dict) (st st' : S) :
  Listing.find cake_collection Listing.projection st = (Returned cakes, st') ->
  (exists cake, In cake cakes /\ ~ In "_id" (Dict.keys cake)) ->
  exists e,
    Listing.get_all_cakes py_str cake_collection st = (Raised e, st')
    /\ exc_cls e = KeyError.
Proof.
  intros Hfind [cake [Hin Hno]].
  unfold Listing.get_all_cakes, Eff.bind. rewrite Hfind.
  rewrite ListingFacts.convert_ids_missing.
  - eexists. split; reflexivity.
  - exists cake. split; [exact Hin|].
    destruct (Dict.mem "_id" cake) eqn:E; [|reflexivity].
    apply DictFacts.mem_keys in E. contradiction.
Qed.

(** X4.  Adding then listing.  On a document collection that holds cakes
    only, when [add_cake] of a mapping with the four required fields and
    nothing outside the whitelist returns the success payload, the
    collection is the one before followed by the new record, and the
    listing that follows is exactly that. *)
Theorem add_then_list
        (py_str : pyval -> string) (data payload data' : dict) (rnd : N)
        (st st' : Mongo.store) :
  str_law py_str ->
  (forall doc, In doc st -> Shape.is_cake doc = true) ->
  (forall field, In field ["name"; "comment"; "imageUrl"; "yumFactor"] ->
                 In field (Dict.keys data)) ->
  (forall k, In k (Dict.keys data) ->
             In k ["name"; "comment"; "imageUrl"; "yumFactor"; "_id"]) ->
  CakeService.add_cake Mongo.collection data rnd st
  = (Returned (RBody payload, data'), st') ->
  let record := Dict.set "_id" (PStr (Uuid.fresh rnd)) data in
  st' = (st ++ [record])%list
  /\ Listing.get_all_cakes py_str MongoFind.finder st'
     = (Returned (st ++ [record])%list, st').
Proof.
  intros Hstr Hcakes Hreq Hallowed Hadd record.
  destruct (AddFacts.passes_validation data Hreq Hallowed) as [Hr He].
  destruct (AddFacts.add_cake_mongo_success _ _ _ _ _ _ Hr He Hadd)
    as [_ [_ [Hst' _]]].
  fold record in Hst'. subst st'. split; [reflexivity|].
  apply ListingFacts.list_cakes; [exact Hstr|].
  intros doc Hdoc. apply in_app_or in Hdoc.
  destruct Hdoc as [Hdoc|[<-|[]]]; [now apply Hcakes|].
  now apply ListingFacts.record_is_cake.
Qed.

(** ** Get and Delete *)

(** X5.  For every collection, when the lookup raises a [ValueError] the
    service method answers with the pair of "Cake not found" and 404, and
    the resource method [Cake.get], which takes that pair for a JSON text,
    raises [TypeError] instead of answering 404. *)
Theorem Cake_get_value_error
        (S : Type) (cakes : Collection S) (cake_id : string) (st st' : S) (e : exc) :
  find_one cakes cake_id st = (Raised e, st') ->
  exc_cls e = ValueError ->
  CakeService.get_cake_by_id cakes cake_id st
  = (Returned (RStatus (message "Cake not found") 404), st')
  /\ exists e', Resource.Cake_get cakes cake_id st = (Raised e', st')
                /\ exc_cls e' = TypeError.
Proof.
  intros Hfind Hcls.
  assert (Hget : CakeService.get_cake_by_id cakes cake_id st
                 = (Returned (RStatus (message "Cake not found") 404), st')).
  { unfold CakeService.get_cake_by_id, Eff.try_except, Eff.bind. rewrite Hfind.
    unfold is_ValueError. now rewrite Hcls. }
  split; [exact Hget|].
  unfold Resource.Cake_get, Eff.bind. rewrite Hget. simpl.
  eexists. split; reflexivity.
Qed.

(** X6.  On the document collection, looking up the identifier of a stored
    document returns that document whole, fields outside the whitelist
    included, as a JSON text from the service; the collection is not
    changed.  [Cake.get] answers with the same document as its body when
    the document holds no Extended JSON form (no key beginning with $, at
    any depth). *)
Theorem Cake_get_found
        (cake_id : string) (doc : dict) (st : Mongo.store) :
  find (Mongo.has_id cake_id) st = Some doc ->
  CakeService.get_cake_by_id Mongo.collection cake_id st = (Returned (RJson doc), st)
  /\ (ExtJson.plain doc = true ->
      Resource.Cake_get Mongo.collection cake_id st = (Returned (RBody doc), st))
  /\ In doc st
  /\ Dict.get "_id" doc = Some (PStr cake_id).
Proof.
  intros Hfind. destruct (MongoFacts.find_has_id _ _ _ Hfind) as [Hin Hid].
  assert (Htruthy : Dict.truthy doc = true) by (destruct doc; [discriminate Hid | reflexivity]).
  assert (Hget : CakeService.get_cake_by_id Mongo.collection cake_id st
                 = (Returned (RJson doc), st)).
  { unfold CakeService.get_cake_by_id, Eff.try_except, Eff.bind. simpl.
    unfold Mongo.mem_find_one. rewrite Hfind. simpl. now rewrite Htruthy. }
  split; [exact Hget|]. split; [|split; assumption].
  intros Hplain. unfold Resource.Cake_get, Eff.bind. rewrite Hget.
  cbn [result_truthy]. unfold Resource.json_loads. now rewrite Hplain.
Qed.

(** X7.  On the document collection, deleting an identifier that some
    stored document has answers "Cake deleted successfully" and takes
    exactly one document out: the collection is one shorter, documents
    with another identifier all stay, and nothing is added. *)
Theorem delete_cake_removes_one
        (cake_id : string) (st : Mongo.store) :
  (exists doc, In doc st /\ Mongo.has_id cake_id doc = true) ->
  let st' := Mongo.remove_first cake_id st in
  CakeService.delete_cake Mongo.collection cake_id st
  = (Returned (RBody (message "Cake deleted successfully")), st')
  /\ S (List.length st') = List.length st
  /\ (forall doc, In doc st -> Mongo.has_id cake_id doc = false -> In doc st')
  /\ (forall doc, In doc st' -> In doc st).
Proof.
  intros Hex st'.
  assert (Hsome : existsb (Mongo.has_id cake_id) st = true)
    by (apply existsb_exists; exact Hex).
  split; [|split; [|split]].
  - unfold CakeService.delete_cake, Eff.bind. simpl. unfold Mongo.mem_delete_one.
    now rewrite Hsome.
  - now apply ShapeFacts.remove_first_length.
  - intros doc Hin Hother. now apply ShapeFacts.remove_first_others.
  - intros doc Hin. now apply (ShapeFacts.remove_first_subset cake_id).
Qed.

(** X8.  On a document collection with unique identifiers, once
    [delete_cake] has run on an identifier, whether it found a record or
    not, the identifier is gone: the lookup returns [None], [Cake.get]
    answers 404, and deleting again answers 404 and changes nothing. *)
Theorem delete_then_not_found
        (cake_id : string) (st : Mongo.store) :
  Shape.unique_ids st ->
  let st' := snd (CakeService.delete_cake Mongo.collection cake_id st) in
  let not_found := RStatus (message "Cake not found") 404 in
  CakeService.get_cake_by_id Mongo.collection cake_id st' = (Returned RNone, st')
  /\ Resource.Cake_get Mongo.collection cake_id st' = (Returned not_found, st')
  /\ CakeService.delete_cake Mongo.collection cake_id st' = (Returned not_found, st').
Proof.
  intros Huniq st' not_found.
  assert (Hgone : existsb (Mongo.has_id cake_id) st' = false).
  { subst st'. unfold CakeService.delete_cake, Eff.bind. simpl.
    unfold Mongo.mem_delete_one.
    destruct (existsb (Mongo.has_id cake_id) st) eqn:E; simpl; [|exact E].
    apply not_true_iff_false. intros Hstill. apply existsb_exists in Hstill.
    destruct Hstill as [doc [Hin Hid]].
    assert (Hf : In doc (filter (Mongo.has_id cake_id) (Mongo.remove_first cake_id st)))
      by (apply filter_In; auto).
    rewrite ShapeFacts.filter_remove_first_same in Hf.
    specialize (Huniq cake_id).
    destruct (filter (Mongo.has_id cake_id) st) as [|d [|d' rest]];
      simpl in *; [contradiction | contradiction | lia]. }
  assert (Hfind : find (Mongo.has_id cake_id) st' = None)
    by now apply MongoFacts.find_none_existsb.
  assert (Hget : CakeService.get_cake_by_id Mongo.collection cake_id st'
                 = (Returned RNone, st')).
  { unfold CakeService.get_cake_by_id, Eff.try_except, Eff.bind. simpl.
    unfold Mongo.mem_find_one. now rewrite Hfind. }
  split; [exact Hget|]. split.
  - unfold Resource.Cake_get, Eff.bind. now rewrite Hget.
  - unfold CakeService.delete_cake, Eff.bind. simpl. unfold Mongo.mem_delete_one.
    now rewrite Hgone.
Qed.

(** X9.  Unique identifiers are an invariant of the document collection
    under the service: after [add_cake], [update_cake] or [delete_cake],
    with any arguments and whatever the outcome, no two stored documents
    answer to the same identifier if none did before. *)
Theorem unique_ids_preserved (st : Mongo.store) :
  Shape.unique_ids st ->
  (forall data rnd,
      Shape.unique_ids (snd (CakeService.add_cake Mongo.collection data rnd st)))
  /\ (forall cake_id data,
         Shape.unique_ids (snd (CakeService.update_cake Mongo.collection cake_id data st)))
  /\ (forall cake_id,
         Shape.unique_ids (snd (CakeService.delete_cake Mongo.collection cake_id st))).
Proof.
  intros Huniq. split; [|split].
  - intros data rnd.
    destruct (CakeService.has_required data) eqn:Hr;
      [|unfold CakeService.add_cake; rewrite Hr; exact Huniq].
    destruct (CakeService.unexpected_fields data) as [|k rest] eqn:He;
      [|unfold CakeService.add_cake; rewrite Hr, He; exact Huniq].
    rewrite (AddFacts.add_cake_mongo data rnd st Hr He). cbv zeta.
    destruct (Bson.refused _); [exact Huniq|].
    destruct (existsb (Mongo.has_id (Uuid.fresh rnd)) st) eqn:Hfresh; [exact Huniq|].
    simpl. intros s. rewrite filter_app, List.length_app. simpl.
    destruct (Mongo.has_id s _) eqn:Hs; simpl.
    + assert (s = Uuid.fresh rnd).
      { apply MongoFacts.has_id_get in Hs. rewrite DictFacts.get_set_same in Hs.
        now inversion Hs. }
      subst s. rewrite (ShapeFacts.filter_none _ _ Hfresh). simpl. lia.
    + specialize (Huniq s). lia.
  - intros cake_id data. rewrite UpdateFacts.update_cake_mongo.
    destruct (find (Mongo.has_id cake_id) st) as [existing|]; [|exact Huniq].
    cbv zeta.
    destruct (Mongo.replacement_refused (Some existing) (Dict.update existing data));
      [exact Huniq|].
    destruct (Mongo.has_id cake_id (Dict.update existing data)) eqn:E;
      [|exact Huniq].
    simpl. intros s. rewrite (ShapeFacts.filter_replace_first _ _ _ _ E).
    apply Huniq.
  - intros cake_id. unfold CakeService.delete_cake, Eff.bind. simpl.
    unfold Mongo.mem_delete_one.
    destruct (existsb (Mongo.has_id cake_id) st); simpl; [|exact Huniq].
    intros s. specialize (Huniq s).
    pose proof (ShapeFacts.filter_remove_first cake_id s st). lia.
Qed.

(** ** Calls made on the collection *)

(** X10.  For every collection, [get_cake_by_id] makes exactly one call,
    [find_one] with the identifier, and [delete_cake] makes exactly one
    call, [delete_one] with the identifier, however the call ends. *)
Theorem get_and_delete_single_call
        (S : Type) (cake_collection : Collection S) (cake_id : string)
        (st : S) (log : list call) :
  snd (snd (CakeService.get_cake_by_id (Recorder.wrap cake_collection) cake_id (st, log)))
  = (log ++ [CallFindOne cake_id])%list
  /\ snd (snd (CakeService.delete_cake (Recorder.wrap cake_collection) cake_id (st, log)))
     = (log ++ [CallDeleteOne cake_id])%list.
Proof.
  split.
  - unfold CakeService.get_cake_by_id, Eff.try_except, Eff.bind. simpl.
    unfold Recorder.logged. simpl.
    destruct (find_one cake_collection cake_id st) as [[[doc|]|e] s1]; simpl;
      try reflexivity.
    destruct (is_ValueError e); reflexivity.
  - unfold CakeService.delete_cake, Eff.bind. simpl. unfold Recorder.logged. simpl.
    destruct (delete_one cake_collection cake_id st) as [[n|e] s1]; simpl;
      [destruct (Z.eqb n 1)|]; reflexivity.
Qed.

(** X11.  For every collection, [update_cake] first calls [find_one] with
    the identifier.  When that call returns a record it makes one more
    call, [find_one_and_replace] with the same identifier and the merge of
    the update mapping over that record; when it returns nothing or raises,
    no other call is made. *)
Theorem update_cake_calls
        (S : Type) (cake_collection : Collection S) (cake_id : string)
        (data : dict) (st : S) (log : list call) :
  let calls :=
    snd (snd (CakeService.update_cake (Recorder.wrap cake_collection) cake_id data
                                      (st, log))) in
  match fst (find_one cake_collection cake_id st) with
  | Returned (Some existing) =>
      calls = (log ++ [CallFindOne cake_id;
                       CallFindOneAndReplace cake_id (Dict.update existing data)])%list
  | _ => calls = (log ++ [CallFindOne cake_id])%list
  end.
Proof.
  unfold CakeService.update_cake, Eff.bind. simpl. unfold Recorder.logged. simpl.
  destruct (find_one cake_collection cake_id st) as [[[existing|]|e] s1]; simpl;
    try reflexivity.
  destruct (find_one_and_replace cake_collection cake_id _ s1) as [[r|e] s2]; simpl;
    now rewrite <- app_assoc.
Qed.

(** ** Validation and Add, continued *)

Module AddMore.

Import CakeService.

(** Both checks read the keys of the mapping and nothing else. *)
Lemma checks_by_keys (d1 d2 : dict) :
  Dict.keys d1 = Dict.keys d2 ->
  has_required d1 = has_required d2
  /\ unexpected_fields d1 = unexpected_fields d2.
Proof.
  intros Hkeys. split.
  - destruct (has_required d1) eqn:E1, (has_required d2) eqn:E2; try reflexivity.
    + pose proof (proj1 (ValidationFacts.has_required_spec d1) E1) as H.
      rewrite Hkeys in H.
      pose proof (proj2 (ValidationFacts.has_required_spec d2) H). congruence.
    + pose proof (proj1 (ValidationFacts.has_required_spec d2) E2) as H.
      rewrite <- Hkeys in H.
      pose proof (proj2 (ValidationFacts.has_required_spec d1) H). congruence.
  - unfold unexpected_fields. now rewrite Hkeys.
Qed.

(** The three shapes a reply of [add_cake] can take. *)
Lemma add_cake_cases {S} (cake_collection : Collection S) (data : dict)
      (rnd : N) (st : S) :
  (exists body,
      add_cake cake_collection data rnd st = (Returned (RStatus body 400, data), st)
      /\ (has_required data = false \/ unexpected_fields data <> []))
  \/ (has_required data = true /\ unexpected_fields data = []
      /\ exists reply st',
          add_cake cake_collection data rnd st
          = (Returned (reply, Dict.set "_id" (PStr (Uuid.fresh rnd)) data), st')
          /\ (reply = RBody [("message", PStr "Cake added successfully");
                             ("_id", PStr (Uuid.fresh rnd))]
              \/ exists e, reply = RStatus [("message", PStr "Server error while adding the cake");
                                            ("error", PStr (exc_str e))] 500)).
Proof.
  destruct (has_required data) eqn:Hr.
  - destruct (unexpected_fields data) as [|k rest] eqn:He.
    + right. split; [reflexivity|]. split; [reflexivity|].
      rewrite (AddFacts.add_cake_validated _ data rnd st Hr He). cbv zeta.
      destruct (insert_one cake_collection _ st) as [[u|e] s1];
        do 2 eexists; (split; [reflexivity|]); [now left | right; eauto].
    + left. unfold add_cake. rewrite Hr, He. simpl.
      eexists. split; [reflexivity|]. right. discriminate.
  - left. unfold add_cake. rewrite Hr. simpl. eexists. split; [reflexivity|]. now left.
Qed.

End AddMore.

(** X12.  Validation looks at field names only.  For every collection,
    when [add_cake] turns a mapping down with a 400 reply, a mapping with
    the same keys in the same order is turned down with the same reply
    whatever values its fields hold, and a mapping with the same set of
    keys in any order is turned down with a 400 reply (the names of
    unexpected fields follow the order of the mapping): no value, be it
    [None], is ever looked at. *)
Theorem validation_ignores_values
        (S : Type) (cake_collection : Collection S) (d1 d2 body : dict)
        (rnd : N) (st : S) :
  CakeService.add_cake cake_collection d1 rnd st
  = (Returned (RStatus body 400, d1), st) ->
  (Dict.keys d1 = Dict.keys d2 ->
   CakeService.add_cake cake_collection d2 rnd st
   = (Returned (RStatus body 400, d2), st))
  /\ ((forall k, In k (Dict.keys d1) <-> In k (Dict.keys d2)) ->
      exists body',
        CakeService.add_cake cake_collection d2 rnd st
        = (Returned (RStatus body' 400, d2), st)).
Proof.
  intros Hrej.
  destruct (AddMore.add_cake_cases cake_collection d1 rnd st)
    as [[body1 [Hadd Hwhy]]|[Hr1 [He1 [reply [st' [Hadd Hreply]]]]]].
  2:{ exfalso. rewrite Hadd in Hrej. inversion Hrej; subst.
      destruct Hreply as [Hb|[e Hb]]; discriminate Hb. }
  rewrite Hadd in Hrej. inversion Hrej; subst body1. clear Hrej. split.
  - intros Hkeys. destruct (AddMore.checks_by_keys d1 d2 Hkeys) as [Hr He].
    unfold CakeService.add_cake in Hadd |- *. rewrite <- Hr, <- He.
    destruct (CakeService.has_required d1); simpl in Hadd |- *.
    + destruct (list_truthy (CakeService.unexpected_fields d1)) eqn:Et.
      * inversion Hadd. reflexivity.
      * exfalso. apply ValidationFacts.list_truthy_spec in Et.
        destruct Hwhy as [Hno|Hno]; [discriminate Hno | contradiction].
    + inversion Hadd. reflexivity.
  - intros Hset.
    assert (Hagain : CakeService.has_required d2 = false
                     \/ CakeService.unexpected_fields d2 <> []).
    { destruct Hwhy as [Hmiss|Hextra].
      - left. apply ValidationFacts.has_required_false in Hmiss.
        destruct Hmiss as [f [Hf Hout]]. apply ValidationFacts.has_required_false.
        exists f. split; [exact Hf|]. intros Hin. apply Hout. now apply Hset.
      - right. destruct (CakeService.unexpected_fields d1) as [|k rest] eqn:E;
          [contradiction|].
        assert (Hk : In k (CakeService.unexpected_fields d1)) by (rewrite E; now left).
        apply ValidationFacts.unexpected_fields_spec in Hk. destruct Hk as [Hin Hout].
        assert (Hk2 : In k (CakeService.unexpected_fields d2)).
        { apply ValidationFacts.unexpected_fields_spec. split; [now apply Hset | exact Hout]. }
        intros Hnil. rewrite Hnil in Hk2. contradiction. }
    destruct (AddMore.add_cake_cases cake_collection d2 rnd st)
      as [[body2 [Hadd2 _]]|[Hr2 [He2 _]]].
    + eauto.
    + exfalso. destruct Hagain as [H|H]; [congruence | contradiction].
Qed.

(** X13.  For every collection and every mapping, [add_cake] returns a
    reply and never lets an exception of the collection through.  The
    reply is a 400 pair, with the collection and the mapping untouched, or
    the success payload, or a 500 pair. *)
Theorem add_cake_never_raises
        (S : Type) (cake_collection : Collection S) (data : dict) (rnd : N) (st : S) :
  exists reply data' st',
    CakeService.add_cake cake_collection data rnd st = (Returned (reply, data'), st')
    /\ ((exists body, reply = RStatus body 400 /\ data' = data /\ st' = st)
        \/ (exists id, reply = RBody [("message", PStr "Cake added successfully");
                                      ("_id", PStr id)]
                       /\ Dict.get "_id" data' = Some (PStr id))
        \/ (exists body, reply = RStatus body 500)).
Proof.
  destruct (AddMore.add_cake_cases cake_collection data rnd st)
    as [[body [Hadd _]]|[_ [_ [reply [st' [Hadd Hreply]]]]]].
  - do 3 eexists. split; [exact Hadd|]. left. eauto.
  - do 3 eexists. split; [exact Hadd|]. right.
    destruct Hreply as [->|[e ->]]; [left | right; eauto].
    eexists. split; [reflexivity | apply DictFacts.get_set_same].
Qed.

(** X17.  For a mapping with unique keys that passes both checks, the
    record [add_cake] gives to [insert_one] has the five fields name,
    comment, imageUrl, yumFactor and _id, each once, and no other. *)
Theorem add_cake_stores_five_fields
        (S : Type) (cake_collection : Collection S) (data : dict) (rnd : N)
        (st : S) (log : list call) :
  Dict.wf data ->
  (forall field, In field ["name"; "comment"; "imageUrl"; "yumFactor"] ->
                 In field (Dict.keys data)) ->
  (forall k, In k (Dict.keys data) ->
             In k ["name"; "comment"; "imageUrl"; "yumFactor"; "_id"]) ->
  exists record,
    snd (snd (CakeService.add_cake (Recorder.wrap cake_collection) data rnd (st, log)))
    = (log ++ [CallInsertOne record])%list
    /\ (forall k, In k (Dict.keys record)
                  <-> In k ["name"; "comment"; "imageUrl"; "yumFactor"; "_id"])
    /\ NoDup (Dict.keys record).
Proof.
  intros Hwf Hreq Hallowed.
  destruct (AddFacts.passes_validation data Hreq Hallowed) as [Hr He].
  exists (Dict.set "_id" (PStr (Uuid.fresh rnd)) data). split; [|split].
  - rewrite (AddFacts.add_cake_validated _ data rnd (st, log) Hr He). cbv zeta.
    simpl. unfold Recorder.logged. simpl.
    destruct (insert_one cake_collection _ st) as [[u|e] s1]; reflexivity.
  - intros k. rewrite DictFacts.keys_set. split.
    + destruct (Dict.mem "_id" data); intros Hk; [now apply Hallowed|].
      apply in_app_or in Hk. destruct Hk as [Hk|[<-|[]]]; [now apply Hallowed|].
      simpl. auto 10.
    + intros Hk. destruct (Dict.mem "_id" data) eqn:Hm.
      * simpl in Hk. destruct Hk as [<-|[<-|[<-|[<-|[<-|[]]]]]];
          try solve [apply Hreq; simpl; auto 10]. now apply DictFacts.mem_keys.
      * apply in_or_app. simpl in Hk.
        destruct Hk as [<-|[<-|[<-|[<-|[<-|[]]]]]];
          try solve [left; apply Hreq; simpl; auto 10]. right. now left.
  - now apply DictFacts.set_wf.
Qed.

(** ** Update, continued *)

(** X14.  On the document collection, an update mapping that holds nothing
    new for a stored record, the empty mapping in particular, is answered
    "Cake updated successfully" and leaves the collection exactly as it
    was. *)
Theorem update_cake_no_change
        (cake_id : string) (data existing : dict) (st : Mongo.store) :
  find (Mongo.has_id cake_id) st = Some existing ->
  (forall k v, In (k, v) data -> Dict.get k existing = Some v) ->
  CakeService.update_cake Mongo.collection cake_id data st
  = (Returned (RBody (message "Cake updated successfully")), st).
Proof.
  intros Hfind Hsame.
  rewrite UpdateFacts.update_cake_mongo, Hfind. cbv zeta.
  rewrite (DictMore.update_same existing data Hsame).
  rewrite UpdateFacts.replacement_same.
  destruct (find_some _ _ Hfind) as [_ Hid]. rewrite Hid.
  now rewrite (ShapeFacts.replace_first_found _ _ _ Hfind).
Qed.

(** X15.  On the document collection, [update_cake] is idempotent: for an
    update mapping with unique keys, running the same update a second time
    gives the same reply, or raises the same exception, and the collection
    is left as the first run left it. *)
Theorem update_cake_idempotent
        (cake_id : string) (data : dict) (st : Mongo.store) :
  Dict.wf data ->
  let once := CakeService.update_cake Mongo.collection cake_id data st in
  CakeService.update_cake Mongo.collection cake_id data (snd once) = once.
Proof.
  intros Hwf once. subst once. rewrite (UpdateFacts.update_cake_mongo cake_id data st).
  destruct (find (Mongo.has_id cake_id) st) as [existing|] eqn:Hfind.
  - cbv zeta. set (merged := Dict.update existing data).
    destruct (Mongo.replacement_refused (Some existing) merged) as [e|] eqn:Href.
    { simpl snd. rewrite UpdateFacts.update_cake_mongo, Hfind. cbv zeta.
      fold merged. now rewrite Href. }
    destruct (Mongo.has_id cake_id merged) eqn:Hid; simpl snd.
    + assert (Hsome : existsb (Mongo.has_id cake_id) st = true).
      { apply not_false_iff_true. intros Hnone.
        apply MongoFacts.find_none_existsb in Hnone. congruence. }
      assert (Hfind' : find (Mongo.has_id cake_id) (Mongo.replace_first cake_id merged st)
                       = Some merged)
        by now apply MongoFacts.find_replace_first.
      rewrite UpdateFacts.update_cake_mongo, Hfind'. cbv zeta.
      assert (Hagain : Dict.update merged data = merged).
      { apply DictMore.update_same. intros k v Hin. unfold merged.
        rewrite (DictFacts.get_update k existing data Hwf).
        now rewrite (DictMore.in_get k v data Hwf Hin). }
      rewrite Hagain, UpdateFacts.replacement_same, Hid.
      now rewrite (ShapeFacts.replace_first_found _ _ _ Hfind').
    + rewrite UpdateFacts.update_cake_mongo, Hfind. cbv zeta. fold merged.
      now rewrite Href, Hid.
  - simpl snd. now rewrite UpdateFacts.update_cake_mongo, Hfind.
Qed.

(** X16.  On the document collection, an update that is answered with
    success never drops or moves a field of the stored record: the record
    stored afterwards has the keys of the old one, in the same order,
    followed by the keys that only the update mapping has; and its keys
    are unique if those of the old record were. *)
Theorem update_cake_keeps_fields
        (cake_id : string) (data existing : dict) (st : Mongo.store) (reply : result) :
  find (Mongo.has_id cake_id) st = Some existing ->
  fst (CakeService.update_cake Mongo.collection cake_id data st) = Returned reply ->
  exists merged extra,
    find (Mongo.has_id cake_id)
         (snd (CakeService.update_cake Mongo.collection cake_id data st)) = Some merged
    /\ Dict.keys merged = (Dict.keys existing ++ extra)%list
    /\ (forall k, In k extra -> In k (Dict.keys data) /\ ~ In k (Dict.keys existing))
    /\ (Dict.wf existing -> Dict.wf merged).
Proof.
  intros Hfind. rewrite UpdateFacts.update_cake_mongo, Hfind. cbv zeta.
  destruct (Mongo.replacement_refused (Some existing) (Dict.update existing data));
    [discriminate|].
  destruct (Mongo.has_id cake_id (Dict.update existing data)) eqn:Hid; simpl;
    [|discriminate].
  intros _. destruct (DictMore.keys_update existing data) as [extra [Hkeys Hextra]].
  exists (Dict.update existing data), extra. split; [|split; [|split]].
  - apply MongoFacts.find_replace_first; [|exact Hid].
    apply not_false_iff_true. intros Hnone.
    apply MongoFacts.find_none_existsb in Hnone. congruence.
  - exact Hkeys.
  - exact Hextra.
  - apply DictMore.update_wf.
Qed.

(** X18.  For every collection, [delete_cake] and [update_cake] have no
    handler: an exception raised by [delete_one], by [find_one], or by
    [find_one_and_replace] after a record was found, leaves the method as
    that same exception, with no reply. *)
Theorem delete_update_propagate
        (S : Type) (cake_collection : Collection S) (cake_id : string)
        (data existing : dict) (st st1 st2 : S) (e : exc) :
  (delete_one cake_collection cake_id st = (Raised e, st1) ->
   CakeService.delete_cake cake_collection cake_id st = (Raised e, st1))
  /\ (find_one cake_collection cake_id st = (Raised e, st1) ->
      CakeService.update_cake cake_collection cake_id data st = (Raised e, st1))
  /\ (find_one cake_collection cake_id st = (Returned (Some existing), st1) ->
      find_one_and_replace cake_collection cake_id (Dict.update existing data) st1
      = (Raised e, st2) ->
      CakeService.update_cake cake_collection cake_id data st = (Raised e, st2)).
Proof.
  split; [|split].
  - intros H. unfold CakeService.delete_cake, Eff.bind. now rewrite H.
  - intros H. unfold CakeService.update_cake, Eff.bind. now rewrite H.
  - intros Hfind Hrep. unfold CakeService.update_cake, Eff.bind.
    now rewrite Hfind, Hrep.
Qed.

(** X19.  Holding cakes only (a string [_id], no field outside the
    whitelist) is kept by [add_cake] and by [delete_cake] on the document
    collection, with any arguments; [update_cake] keeps it when the update
    mapping has no key outside the whitelist. *)
Theorem cakes_only_preserved (st : Mongo.store) :
  (forall doc, In doc st -> Shape.is_cake doc = true) ->
  (forall data rnd doc,
      In doc (snd (CakeService.add_cake Mongo.collection data rnd st)) ->
      Shape.is_cake doc = true)
  /\ (forall cake_id doc,
         In doc (snd (CakeService.delete_cake Mongo.collection cake_id st)) ->
         Shape.is_cake doc = true)
  /\ (forall cake_id data doc,
         (forall k, In k (Dict.keys data) ->
                    In k ["name"; "comment"; "imageUrl"; "yumFactor"; "_id"]) ->
         In doc (snd (CakeService.update_cake Mongo.collection cake_id data st)) ->
         Shape.is_cake doc = true).
Proof.
  intros Hcakes. split; [|split].
  - intros data rnd doc.
    destruct (CakeService.has_required data) eqn:Hr;
      [|unfold CakeService.add_cake; rewrite Hr; apply Hcakes].
    destruct (CakeService.unexpected_fields data) as [|k0 rest] eqn:He;
      [|unfold CakeService.add_cake; rewrite Hr, He; apply Hcakes].
    rewrite (AddFacts.add_cake_mongo data rnd st Hr He). cbv zeta.
    destruct (Bson.refused _); [apply Hcakes|].
    destruct (existsb (Mongo.has_id (Uuid.fresh rnd)) st); [apply Hcakes|].
    simpl. intros Hin. apply in_app_or in Hin.
    destruct Hin as [Hin|[<-|[]]]; [now apply Hcakes|].
    apply ListingFacts.record_is_cake. intros k Hk.
    destruct (in_dec string_dec k CakeService.allowed_fields) as [Hy|Hn]; [exact Hy|].
    exfalso. assert (Hu : In k (CakeService.unexpected_fields data))
      by (apply ValidationFacts.unexpected_fields_spec; auto).
    rewrite He in Hu. contradiction.
  - intros cake_id doc. unfold CakeService.delete_cake, Eff.bind. simpl.
    unfold Mongo.mem_delete_one.
    destruct (existsb (Mongo.has_id cake_id) st); simpl; [|apply Hcakes].
    intros Hin. apply Hcakes. now apply (ShapeFacts.remove_first_subset cake_id).
  - intros cake_id data doc Hallowed. rewrite UpdateFacts.update_cake_mongo.
    destruct (find (Mongo.has_id cake_id) st) as [existing|] eqn:Hfind; [|apply Hcakes].
    cbv zeta.
    destruct (Mongo.replacement_refused (Some existing) (Dict.update existing data));
      [apply Hcakes|].
    destruct (Mongo.has_id cake_id (Dict.update existing data)) eqn:Hid;
      simpl; [|apply Hcakes].
    intros Hin.
    assert (Hmerged : Shape.is_cake (Dict.update existing data) = true).
    { apply ShapeFacts.is_cake_spec. split.
      - destruct (DictMore.keys_update existing data) as [extra [Hkeys Hextra]].
        intros k Hk. rewrite Hkeys in Hk. apply in_app_or in Hk.
        destruct Hk as [Hk|Hk].
        + destruct (find_some _ _ Hfind) as [Hex _].
          apply Hcakes, ShapeFacts.is_cake_spec in Hex. now apply Hex.
        + apply Hallowed. now apply Hextra.
      - exists cake_id. now apply MongoFacts.has_id_get. }
    clear Hfind. induction st as [|d rest IH]; simpl in Hin; [contradiction|].
    destruct (Mongo.has_id cake_id d).
    + destruct Hin as [<-|Hin]; [exact Hmerged | apply Hcakes; now right].
    + destruct Hin as [<-|Hin]; [apply Hcakes; now left|].
      apply IH; [intros x Hx; apply Hcakes; now right | exact Hin].
Qed.

(** ** A record from creation to removal *)

Module LifeFacts.

Lemma remove_first_appended (s : string) (st : Mongo.store) (doc : dict) :
  existsb (Mongo.has_id s) st = false -> Mongo.has_id s doc = true ->
  Mongo.remove_first s (st ++ [doc])%list = st.
Proof.
  intros Hnone Hid. induction st as [|d rest IH]; simpl in *.
  - now rewrite Hid.
  - destruct (Mongo.has_id s d); [discriminate | now rewrite IH].
Qed.

Lemma existsb_appended (s : string) (st : Mongo.store) (doc : dict) :
  Mongo.has_id s doc = true -> existsb (Mongo.has_id s) (st ++ [doc])%list = true.
Proof.
  intros Hid. rewrite existsb_app. simpl. rewrite Hid. now rewrite orb_true_r.
Qed.

End LifeFacts.

(** X20.  Add, get, delete, get.  On the document collection, when
    [Cakes.post] of a mapping that passes both checks answers with the
    success payload: the collection is the one before followed by the new
    record; [Cake.get] of the identifier returns the record, provided the
    submitted values hold no Extended JSON form; [Cake.delete] of it
    answers "Cake deleted successfully" and leaves the collection exactly
    as it was before the record was added; [Cake.get] then answers 404. *)
Theorem cake_life_cycle
        (data payload data' : dict) (rnd : N) (st st1 : Mongo.store) :
  (forall field, In field ["name"; "comment"; "imageUrl"; "yumFactor"] ->
                 In field (Dict.keys data)) ->
  (forall k, In k (Dict.keys data) ->
             In k ["name"; "comment"; "imageUrl"; "yumFactor"; "_id"]) ->
  Resource.Cakes_post Mongo.collection data rnd st
  = (Returned (RBody payload, data'), st1) ->
  let id := Uuid.fresh rnd in
  let record := Dict.set "_id" (PStr id) data in
  payload = [("message", PStr "Cake added successfully"); ("_id", PStr id)]
  /\ st1 = (st ++ [record])%list
  /\ (ExtJson.plain data = true ->
      Resource.Cake_get Mongo.collection id st1 = (Returned (RBody record), st1))
  /\ Resource.Cake_delete Mongo.collection id st1
     = (Returned (RBody (message "Cake deleted successfully")), st)
  /\ Resource.Cake_get Mongo.collection id st
     = (Returned (RStatus (message "Cake not found") 404), st).
Proof.
  intros Hreq Hallowed Hpost id record.
  destruct (AddFacts.passes_validation data Hreq Hallowed) as [Hr He].
  unfold Resource.Cakes_post in Hpost.
  destruct (AddFacts.add_cake_mongo_success _ _ _ _ _ _ Hr He Hpost)
    as [Hpayload [_ [Hst1 Hfresh]]].
  fold id in Hpayload, Hfresh. fold id record in Hst1.
  assert (Hid : Mongo.has_id id record = true)
    by (apply MongoFacts.has_id_get; apply DictFacts.get_set_same).
  split; [exact Hpayload|]. split; [exact Hst1|]. subst st1.
  split; [|split].
  - intros Hplain.
    assert (Hfind : find (Mongo.has_id id) (st ++ [record])%list = Some record)
      by now apply MongoFacts.find_appended.
    assert (Htruthy : Dict.truthy record = true).
    { apply MongoFacts.has_id_get in Hid. destruct record; [discriminate Hid | reflexivity]. }
    assert (Hrec : ExtJson.plain record = true)
      by exact (JsonFacts.plain_set "_id" (PStr id) data Hplain eq_refl eq_refl).
    unfold Resource.Cake_get, CakeService.get_cake_by_id, Eff.try_except, Eff.bind.
    cbn [find_one Mongo.collection]. unfold Mongo.mem_find_one. rewrite Hfind.
    unfold Eff.ret. rewrite Htruthy. cbn [result_truthy]. unfold Resource.json_loads.
    now rewrite Hrec.
  - unfold Resource.Cake_delete, CakeService.delete_cake, Eff.bind. simpl.
    unfold Mongo.mem_delete_one.
    rewrite (LifeFacts.existsb_appended id st record Hid). simpl.
    now rewrite (LifeFacts.remove_first_appended id st record Hfresh Hid).
  - apply MongoFacts.find_none_existsb in Hfresh.
    unfold Resource.Cake_get, CakeService.get_cake_by_id, Eff.try_except, Eff.bind.
    cbn [find_one Mongo.collection]. unfold Mongo.mem_find_one, Eff.ret.
    now rewrite Hfresh.
Qed.

(** ** The further properties on sample requests *)

Module SampleFacts.

Lemma py_str_law : str_law Sample2.py_str.
Proof. intros s. reflexivity. Qed.

Lemma two_unique : Shape.unique_ids [Sample.stored "a"; Sample.stored "b"].
Proof.
  intros s. simpl. unfold Mongo.has_id. simpl.
  destruct (String.eqb_spec s "a") as [->|Ha]; simpl; [lia|].
  destruct (String.eqb s "b"); simpl; lia.
Qed.

End SampleFacts.

Lemma get_all_cakes_projects_witness :
  let st := [Sample.stored "a"; Sample2.tagged "b"] in
  (forall doc, In doc st -> Dict.mem "_id" doc = true)
  /\ exists cakes,
      Listing.get_all_cakes Sample2.py_str MongoFind.finder st = (Returned cakes, st)
      /\ List.length cakes = 2%nat
      /\ forall n cake, nth_error cakes n = Some cake ->
           exists doc v,
             nth_error st n = Some doc
             /\ Dict.get "_id" doc = Some v
             /\ Dict.get "_id" cake = Some (PStr (Sample2.py_str v))
             /\ (forall k, In k ["name"; "comment"; "imageUrl"; "yumFactor"] ->
                           Dict.get k cake = Dict.get k doc)
             /\ (forall k, In k (Dict.keys cake) ->
                           In k (Dict.keys doc)
                           /\ In k ["_id"; "name"; "comment"; "imageUrl"; "yumFactor"]).
Proof.
  intros st.
  assert (Hids : forall doc, In doc st -> Dict.mem "_id" doc = true)
    by (intros doc [<-|[<-|[]]]; reflexivity).
  split; [exact Hids|].
  exact (get_all_cakes_projects Sample2.py_str st Hids).
Defined.

Lemma get_all_cakes_verbatim_witness :
  let st := [Sample.stored "a"; Sample.stored "b"] in
  str_law Sample2.py_str
  /\ (forall doc, In doc st -> Shape.is_cake doc = true)
  /\ Listing.get_all_cakes Sample2.py_str MongoFind.finder st = (Returned st, st)
  /\ Listing.Cakes_get Sample2.py_str MongoFind.finder st = (Returned st, st).
Proof.
  intros st.
  assert (Hcakes : forall doc, In doc st -> Shape.is_cake doc = true)
    by (intros doc [<-|[<-|[]]]; reflexivity).
  split; [exact SampleFacts.py_str_law|]. split; [exact Hcakes|].
  exact (get_all_cakes_verbatim Sample2.py_str st SampleFacts.py_str_law Hcakes).
Defined.

Lemma get_all_cakes_missing_id_witness :
  Listing.find Sample2.loose_finder Listing.projection tt
  = (Returned [Sample.stored "a"; Sample2.nameless], tt)
  /\ (exists cake, In cake [Sample.stored "a"; Sample2.nameless]
                   /\ ~ In "_id" (Dict.keys cake))
  /\ exists e,
      Listing.get_all_cakes Sample2.py_str Sample2.loose_finder tt = (Raised e, tt)
      /\ exc_cls e = KeyError.
Proof.
  assert (Hmissing : exists cake, In cake [Sample.stored "a"; Sample2.nameless]
                                  /\ ~ In "_id" (Dict.keys cake)).
  { exists Sample2.nameless. split; [simpl; auto | outside]. }
  split; [reflexivity|]. split; [exact Hmissing|].
  exact (get_all_cakes_missing_id unit Sample2.py_str Sample2.loose_finder
           [Sample.stored "a"; Sample2.nameless] tt tt eq_refl Hmissing).
Defined.

Lemma add_then_list_witness :
  let st := [Sample.stored "a"] in
  let id := "00000000-0000-4000-8000-000000000007" in
  let record := (Sample.victoria ++ [("_id", PStr id)])%list in
  let payload := [("message", PStr "Cake added successfully"); ("_id", PStr id)] in
  CakeService.add_cake Mongo.collection Sample.victoria 7 st
  = (Returned (RBody payload, record), [Sample.stored "a"; record])
  /\ Listing.get_all_cakes Sample2.py_str MongoFind.finder [Sample.stored "a"; record]
     = (Returned [Sample.stored "a"; record], [Sample.stored "a"; record]).
Proof.
  intros st id record payload.
  assert (Hadd : CakeService.add_cake Mongo.collection Sample.victoria 7 st
                 = (Returned (RBody payload, record), [Sample.stored "a"; record]))
    by reflexivity.
  split; [exact Hadd|].
  destruct (add_then_list Sample2.py_str Sample.victoria payload record 7 st
                          [Sample.stored "a"; record] SampleFacts.py_str_law)
    as [_ Hlist]; [| fields | fields | exact Hadd | exact Hlist].
  intros doc [<-|[]]. reflexivity.
Defined.

Lemma Cake_get_value_error_witness :
  find_one (Failing.raising Failing.malformed) "not-a-uuid" tt
  = (Raised Failing.malformed, tt)
  /\ exc_cls Failing.malformed = ValueError
  /\ CakeService.get_cake_by_id (Failing.raising Failing.malformed) "not-a-uuid" tt
     = (Returned (RStatus (message "Cake not found") 404), tt)
  /\ exists e', Resource.Cake_get (Failing.raising Failing.malformed) "not-a-uuid" tt
                = (Raised e', tt)
                /\ exc_cls e' = TypeError.
Proof.
  split; [reflexivity|]. split; [reflexivity|].
  exact (Cake_get_value_error unit (Failing.raising Failing.malformed) "not-a-uuid"
           tt tt Failing.malformed eq_refl eq_refl).
Defined.

Lemma Cake_get_found_witness :
  let st := [Sample.stored "a"; Sample2.tagged "b"] in
  find (Mongo.has_id "b") st = Some (Sample2.tagged "b")
  /\ ExtJson.plain (Sample2.tagged "b") = true
  /\ CakeService.get_cake_by_id Mongo.collection "b" st
     = (Returned (RJson (Sample2.tagged "b")), st)
  /\ Resource.Cake_get Mongo.collection "b" st = (Returned (RBody (Sample2.tagged "b")), st)
  /\ In (Sample2.tagged "b") st
  /\ Dict.get "_id" (Sample2.tagged "b") = Some (PStr "b").
Proof.
  intros st. split; [reflexivity|]. split; [reflexivity|].
  destruct (Cake_get_found "b" (Sample2.tagged "b") st eq_refl)
    as [Hget [Hres [Hin Hid]]].
  split; [exact Hget|]. split; [apply Hres; reflexivity|]. split; assumption.
Defined.

Lemma delete_cake_removes_one_witness :
  let st := [Sample.stored "a"; Sample.stored "b"] in
  (exists doc, In doc st /\ Mongo.has_id "a" doc = true)
  /\ CakeService.delete_cake Mongo.collection "a" st
     = (Returned (RBody (message "Cake deleted successfully")), [Sample.stored "b"])
  /\ S (List.length [Sample.stored "b"]) = List.length st
  /\ (forall doc, In doc st -> Mongo.has_id "a" doc = false -> In doc [Sample.stored "b"])
  /\ (forall doc, In doc [Sample.stored "b"] -> In doc st).
Proof.
  intros st.
  assert (Hex : exists doc, In doc st /\ Mongo.has_id "a" doc = true).
  { exists (Sample.stored "a"). split; [now left | reflexivity]. }
  split; [exact Hex|].
  exact (delete_cake_removes_one "a" st Hex).
Defined.

Lemma delete_then_not_found_witness :
  let st := [Sample.stored "a"; Sample.stored "b"] in
  let st' := [Sample.stored "b"] in
  let not_found := RStatus (message "Cake not found") 404 in
  Shape.unique_ids st
  /\ CakeService.get_cake_by_id Mongo.collection "a" st' = (Returned RNone, st')
  /\ Resource.Cake_get Mongo.collection "a" st' = (Returned not_found, st')
  /\ CakeService.delete_cake Mongo.collection "a" st' = (Returned not_found, st').
Proof.
  intros st st' not_found. split; [exact SampleFacts.two_unique|].
  exact (delete_then_not_found "a" st SampleFacts.two_unique).
Defined.

Lemma unique_ids_preserved_witness :
  let st := [Sample.stored "a"; Sample.stored "b"] in
  Shape.unique_ids st
  /\ (forall data rnd,
         Shape.unique_ids (snd (CakeService.add_cake Mongo.collection data rnd st)))
  /\ (forall cake_id data,
         Shape.unique_ids (snd (CakeService.update_cake Mongo.collection cake_id data st)))
  /\ (forall cake_id,
         Shape.unique_ids (snd (CakeService.delete_cake Mongo.collection cake_id st))).
Proof.
  intros st. split; [exact SampleFacts.two_unique|].
  exact (unique_ids_preserved st SampleFacts.two_unique).
Defined.

Lemma validation_ignores_values_witness :
  let d2 := [("comment", PNone); ("imageUrl", PInt 3)] in
  let d3 := [("imageUrl", PStr "i.jpg"); ("comment", PBool true)] in
  let missing := message "Missing required fields in the data" in
  CakeService.add_cake Mongo.collection Sample.no_yum 7 []
  = (Returned (RStatus missing 400, Sample.no_yum), [])
  /\ Dict.keys Sample.no_yum = Dict.keys d2
  /\ CakeService.add_cake Mongo.collection d2 7 [] = (Returned (RStatus missing 400, d2), [])
  /\ (forall k, In k (Dict.keys Sample.no_yum) <-> In k (Dict.keys d3))
  /\ exists body',
      CakeService.add_cake Mongo.collection d3 7 [] = (Returned (RStatus body' 400, d3), []).
Proof.
  intros d2 d3 missing.
  assert (Hrej : CakeService.add_cake Mongo.collection Sample.no_yum 7 []
                 = (Returned (RStatus missing 400, Sample.no_yum), [])) by reflexivity.
  assert (Hset : forall k, In k (Dict.keys Sample.no_yum) <-> In k (Dict.keys d3))
    by (intros k; simpl; tauto).
  destruct (validation_ignores_values _ Mongo.collection Sample.no_yum d2 missing 7 [] Hrej)
    as [Hsame _].
  destruct (validation_ignores_values _ Mongo.collection Sample.no_yum d3 missing 7 [] Hrej)
    as [_ Hany].
  split; [exact Hrej|]. split; [reflexivity|]. split; [exact (Hsame eq_refl)|].
  split; [exact Hset | exact (Hany Hset)].
Defined.

Lemma update_cake_no_change_witness :
  let st := [Sample.stored "b"; Sample.stored "a"] in
  let data := [("name", PStr "Cake 1")] in
  find (Mongo.has_id "a") st = Some (Sample.stored "a")
  /\ (forall k v, In (k, v) data -> Dict.get k (Sample.stored "a") = Some v)
  /\ CakeService.update_cake Mongo.collection "a" data st
     = (Returned (RBody (message "Cake updated successfully")), st).
Proof.
  intros st data.
  assert (Hsame : forall k v, In (k, v) data -> Dict.get k (Sample.stored "a") = Some v).
  { intros k v [E|[]]. inversion E. reflexivity. }
  split; [reflexivity|]. split; [exact Hsame|].
  exact (update_cake_no_change "a" data (Sample.stored "a") st eq_refl Hsame).
Defined.

Lemma update_cake_idempotent_witness :
  let data := [("name", PStr "X"); ("baker", PStr "Ada")] in
  let st := [Sample.stored "a"] in
  Dict.wf data
  /\ CakeService.update_cake Mongo.collection "a" data
       (snd (CakeService.update_cake Mongo.collection "a" data st))
     = CakeService.update_cake Mongo.collection "a" data st.
Proof.
  intros data st.
  assert (Hwf : Dict.wf data).
  { repeat constructor; simpl; intuition discriminate. }
  split; [exact Hwf|].
  exact (update_cake_idempotent "a" data st Hwf).
Defined.

Lemma update_cake_keeps_fields_witness :
  let data := [("baker", PStr "Ada"); ("name", PStr "Z")] in
  let st := [Sample.stored "a"] in
  let out := CakeService.update_cake Mongo.collection "a" data st in
  find (Mongo.has_id "a") st = Some (Sample.stored "a")
  /\ fst out = Returned (RBody (message "Cake updated successfully"))
  /\ exists merged extra,
      find (Mongo.has_id "a") (snd out) = Some merged
      /\ Dict.keys merged = (Dict.keys (Sample.stored "a") ++ extra)%list
      /\ (forall k, In k extra ->
                    In k (Dict.keys data) /\ ~ In k (Dict.keys (Sample.stored "a")))
      /\ (Dict.wf (Sample.stored "a") -> Dict.wf merged).
Proof.
  intros data st out. split; [reflexivity|]. split; [reflexivity|].
  exact (update_cake_keeps_fields "a" data (Sample.stored "a") st
           (RBody (message "Cake updated successfully")) eq_refl eq_refl).
Defined.

Lemma add_cake_stores_five_fields_witness :
  Dict.wf Sample2.all_none
  /\ exists record,
      snd (snd (CakeService.add_cake (Recorder.wrap Mongo.collection)
                                     Sample2.all_none 7 ([], [])))
      = [CallInsertOne record]
      /\ (forall k, In k (Dict.keys record)
                    <-> In k ["name"; "comment"; "imageUrl"; "yumFactor"; "_id"])
      /\ NoDup (Dict.keys record).
Proof.
  assert (Hwf : Dict.wf Sample2.all_none).
  { repeat constructor; simpl; intuition discriminate. }
  split; [exact Hwf|].
  apply (add_cake_stores_five_fields _ Mongo.collection Sample2.all_none 7 [] [] Hwf).
  - fields.
  - fields.
Defined.

Lemma delete_update_propagate_witness :
  let down := Failing.raising Failing.unreachable in
  let st := [Sample.stored "a"] in
  CakeService.delete_cake down "a" tt = (Raised Failing.unreachable, tt)
  /\ CakeService.update_cake down "a" [("name", PStr "X")] tt
     = (Raised Failing.unreachable, tt)
  /\ find_one Mongo.collection "a" st = (Returned (Some (Sample.stored "a")), st)
  /\ CakeService.update_cake Mongo.collection "a" [("_id", PStr "b")] st
     = (Raised Mongo.altered_id, st).
Proof.
  intros down st.
  destruct (delete_update_propagate unit down "a" [("name", PStr "X")] [] tt tt tt
                                    Failing.unreachable) as [Hdel [Hupd _]].
  destruct (delete_update_propagate Mongo.store Mongo.collection "a" [("_id", PStr "b")]
                                    (Sample.stored "a") st st st Mongo.altered_id)
    as [_ [_ Hrep]].
  split; [apply Hdel; reflexivity|]. split; [apply Hupd; reflexivity|].
  split; [reflexivity|]. apply Hrep; reflexivity.
Defined.

Lemma cakes_only_preserved_witness :
  let st := [Sample.stored "a"; Sample.stored "b"] in
  (forall doc, In doc st -> Shape.is_cake doc = true)
  /\ (forall data rnd doc,
         In doc (snd (CakeService.add_cake Mongo.collection data rnd st)) ->
         Shape.is_cake doc = true)
  /\ (forall cake_id doc,
         In doc (snd (CakeService.delete_cake Mongo.collection cake_id st)) ->
         Shape.is_cake doc = true)
  /\ (forall cake_id data doc,
         (forall k, In k (Dict.keys data) ->
                    In k ["name"; "comment"; "imageUrl"; "yumFactor"; "_id"]) ->
         In doc (snd (CakeService.update_cake Mongo.collection cake_id data st)) ->
         Shape.is_cake doc = true).
Proof.
  intros st.
  assert (Hcakes : forall doc, In doc st -> Shape.is_cake doc = true)
    by (intros doc [<-|[<-|[]]]; reflexivity).
  split; [exact Hcakes|].
  exact (cakes_only_preserved st Hcakes).
Defined.

Lemma cake_life_cycle_witness :
  let id := "00000000-0000-4000-8000-000000000007" in
  let record := (Sample.victoria ++ [("_id", PStr id)])%list in
  let payload := [("message", PStr "Cake added successfully"); ("_id", PStr id)] in
  let st := [Sample.stored "a"] in
  let st1 := [Sample.stored "a"; record] in
  Resource.Cakes_post Mongo.collection Sample.victoria 7 st
  = (Returned (RBody payload, record), st1)
  /\ Resource.Cake_get Mongo.collection id st1 = (Returned (RBody record), st1)
  /\ Resource.Cake_delete Mongo.collection id st1
     = (Returned (RBody (message "Cake deleted successfully")), st)
  /\ Resource.Cake_get Mongo.collection id st
     = (Returned (RStatus (message "Cake not found") 404), st).
Proof.
  intros id record payload st st1.
  assert (Hpost : Resource.Cakes_post Mongo.collection Sample.victoria 7 st
                  = (Returned (RBody payload, record), st1)) by reflexivity.
  split; [exact Hpost|].
  destruct (cake_life_cycle Sample.victoria payload record 7 st st1)
    as [_ [_ [Hget [Hdel Hgone]]]]; [fields | fields | exact Hpost |].
  split; [apply Hget; reflexivity|]. split; [exact Hdel | exact Hgone].
Defined.
